(** * bk-monitor front end: the profiling graph controller and [charColor]

    A shallow embedding of two TypeScript sources:

    - [trace/plugins/charts/profiling-graph/profiling-graph.tsx]: the
      [ProfilingGraph] component's [setup] function: its refs, the
      [flameFilterKeywords] computed value, [getParams], and the async
      handlers [handleQuery], [handleModeChange], [handleSortChange],
      together with the two watchers that trigger [handleQuery], and what
      [render] puts on screen;
    - [apm/pages/home/utils.ts]: [charColor].

    JavaScript strings are sequences of UTF-16 code units, objects used as
    records of request parameters are finite maps from property names to
    values, and an async handler is a program in a small monad whose
    effects are reading and writing the component's refs, throwing, and
    awaiting the [query] API call. *)

From Stdlib Require Import ZArith NArith List String Ascii Lia.
From Stdlib Require Import DecimalN.
From stdpp Require Import gmap strings list fin_maps.

Open Scope N_scope.

(** ** JavaScript strings *)

(** A string value: its UTF-16 code units. *)
Definition jsstring := list N.

#[global] Instance jsstring_eq_dec : EqDecision jsstring := _.
#[global] Instance jsstring_countable : Countable jsstring := _.

(** A string literal of the source (all of them are ASCII). *)
Definition js (s : string) : jsstring :=
  map N_of_ascii (list_ascii_of_string s).

Arguments js : simpl never.

(** [WhiteSpace] and [LineTerminator] of ECMAScript, the code units that
    [String.prototype.trim] strips. *)
Definition is_white_space (c : N) : bool :=
  (c =? 9) || (c =? 10) || (c =? 11) || (c =? 12) || (c =? 13) ||
  (c =? 32) || (c =? 160) || (c =? 5760) ||
  ((8192 <=? c) && (c <=? 8202)) ||
  (c =? 8232) || (c =? 8233) || (c =? 8239) || (c =? 8287) ||
  (c =? 12288) || (c =? 65279).

Fixpoint trimStart (s : jsstring) : jsstring :=
  match s with
  | [] => []
  | c :: s' => if is_white_space c then trimStart s' else s
  end.

Definition trimEnd (s : jsstring) : jsstring := rev (trimStart (rev s)).

(** [String.prototype.trim]. *)
Definition trim (s : jsstring) : jsstring := trimEnd (trimStart s).

(** ** Numbers and their printing *)

(** The numbers [charColor] computes with: a non-negative integer or [NaN]
    (what [charCodeAt] returns out of range). *)
Inductive number :=
| NaN
| Int (n : N).

(** [x % m] for a positive integer literal [m]. *)
Definition js_mod (x : number) (m : N) : number :=
  match x with
  | NaN => NaN
  | Int n => Int (n mod m)
  end.

Fixpoint uint_units (d : Decimal.uint) : jsstring :=
  match d with
  | Decimal.Nil => []
  | Decimal.D0 d => 48 :: uint_units d
  | Decimal.D1 d => 49 :: uint_units d
  | Decimal.D2 d => 50 :: uint_units d
  | Decimal.D3 d => 51 :: uint_units d
  | Decimal.D4 d => 52 :: uint_units d
  | Decimal.D5 d => 53 :: uint_units d
  | Decimal.D6 d => 54 :: uint_units d
  | Decimal.D7 d => 55 :: uint_units d
  | Decimal.D8 d => 56 :: uint_units d
  | Decimal.D9 d => 57 :: uint_units d
  end.

(** The decimal numeral of a non-negative integer, most significant digit
    first, no leading zero. *)
Definition decimal (n : N) : jsstring := uint_units (N.to_uint n).

(** [Number::toString], as a template literal applies it. *)
Definition Number_toString (x : number) : jsstring :=
  match x with
  | NaN => js "NaN"
  | Int n => decimal n
  end.

(** Reading a decimal numeral back. *)
Definition digit_of_unit (c : N) : option N :=
  if (48 <=? c) && (c <=? 57) then Some (c - 48) else None.

Fixpoint parse_decimal_from (acc : N) (s : jsstring) : option N :=
  match s with
  | [] => Some acc
  | c :: s' =>
      match digit_of_unit c with
      | Some d => parse_decimal_from (10 * acc + d) s'
      | None => None
      end
  end.

Definition parse_decimal (s : jsstring) : option N :=
  match s with
  | [] => None
  | _ => parse_decimal_from 0 s
  end.

(** ** [apm/pages/home/utils.ts] *)

(** [str.charCodeAt(0)]. *)
Definition charCodeAt0 (str : jsstring) : number :=
  match str with
  | [] => NaN
  | c :: _ => Int c
  end.

Definition charColor (str : jsstring) : jsstring :=
  let h := js_mod (charCodeAt0 str) 360 in
  let s := js "50%" in
  let l := js "50%" in
  let color := js "hsl(" ++ Number_toString h ++ js ", " ++ s ++ js ", " ++ l ++ js ")" in
  color.

(** ** [profiling-graph.tsx]: the computed [flameFilterKeywords] *)

(** [filterKeyword.value?.trim?.().length ? [filterKeyword.value] : []];
    [None] is a [null] or [undefined] keyword, on which the optional chain
    yields [undefined]. *)
Definition flameFilterKeywords (filterKeyword : option jsstring) : list jsstring :=
  match filterKeyword with
  | None => []
  | Some k => if (N.of_nat (length (trim k)) =? 0) then [] else [k]
  end.

(** ** Values, request parameters and responses *)

(** The values a request parameter can hold. The numbers among them are
    the binary64 values the controller computes from integers: an integer,
    or an infinity where the product overflows. *)
#[warnings="-register-all"]
Inductive value :=
| VBool (b : bool)
| VNum (z : Z)
| VInfinity (negative : bool)
| VStr (s : jsstring)
| VArr (l : list value)
| VObj (fields : list (jsstring * value)).

(** The integer a binary64 operation returns when its exact result is the
    integer [z], the exponent range apart: [z] itself below 2^53, and
    otherwise [z] rounded to 53 significant bits, to nearest, ties to
    even. *)
Definition binary64_round (z : Z) : Z :=
  let a := Z.abs z in
  if (a <? 2 ^ 53)%Z then z
  else
    let e := (Z.log2 a - 52)%Z in
    let q := Z.shiftr a e in
    let r := (a mod 2 ^ e)%Z in
    let half := (2 ^ (e - 1))%Z in
    let q' := if (half <? r)%Z || ((r =? half)%Z && Z.odd q) then (q + 1)%Z else q in
    (Z.sgn z * (q' * 2 ^ e))%Z.

(** [x * y] on two numbers that hold the integers [x] and [y]: the exact
    product, rounded once, and an infinity from 2^1024 on. *)
Definition js_times (x y : Z) : value :=
  let p := binary64_round (x * y) in
  if (Z.abs p <? 2 ^ 1024)%Z then VNum p else VInfinity (p <? 0)%Z.

(** [ViewModeType], the four members the component uses. *)
Inductive ViewModeType := Combine | Flame | Table | Topo.

#[global] Instance ViewModeType_eq_dec : EqDecision ViewModeType.
Proof. solve_decision. Defined.

(** [BaseDataType], with the fields of the initial [flameData]. *)
#[warnings="-register-all"]
Inductive BaseDataType :=
  mkBaseDataType {
    bd_name : jsstring;
    bd_children : option (list BaseDataType);
    bd_id : jsstring
  }.

(** What a handler can throw: the [TypeError] of reading a property of
    [null] or [undefined]. *)
Inductive exn := TypeError.

Section Controller.

(** The types and the function the component imports and this development
    does not look into: the time range kept in the injected
    [toolsFormData], a row of the table, and
    [handleTransformToTimestamp], which turns the time range into a pair
    of epoch seconds. *)
Context {TimeRange ProfilingTableItem : Type}.
Context (handleTransformToTimestamp : TimeRange -> Z * Z).

(** The [diagrams] field of a response; [None] is an absent (or falsy)
    field. *)
Record diagrams := {
  d_unit : option jsstring;
  table_data : option (list ProfilingTableItem);
  flame_data : option BaseDataType;
  call_graph_data : option jsstring
}.

(** What [await query(params).catch(() => false)] evaluates to: [false],
    an object with or without a truthy [diagrams] field, or [null] /
    [undefined]. *)
Inductive jsdata :=
| DFalse
| DNullish
| DObject (ds : option diagrams).

(** How the promise returned by [query] settles. *)
Inductive settled :=
| Fulfilled (data : jsdata)
| Rejected.

(** The diagrams a settlement carries, if any. *)
Definition payload (o : settled) : option diagrams :=
  match o with
  | Fulfilled (DObject ds) => ds
  | _ => None
  end.

(** ** The component's state

    The refs of [setup] (the renderer handle [frameGraphRef] and
    [textDirection] apart, which no handler below touches), with the two
    reactive inputs [getParams] reads: the [queryParams] prop and the
    injected time range. The refs [empty] and [unit] are [empty_] and
    [unit_] here. *)
Record store := {
  queryParams : gmap jsstring value;
  timeRange : TimeRange;
  empty_ : bool;
  activeMode : ViewModeType;
  isLoading : bool;
  tableData : list ProfilingTableItem;
  flameData : option BaseDataType;
  unit_ : jsstring;
  highlightId : Z;
  filterKeyword : option jsstring;
  topoSrc : jsstring
}.

Definition set_queryParams (v : gmap jsstring value) (s : store) : store :=
  {| queryParams := v; timeRange := timeRange s; empty_ := empty_ s;
     activeMode := activeMode s; isLoading := isLoading s;
     tableData := tableData s; flameData := flameData s; unit_ := unit_ s;
     highlightId := highlightId s; filterKeyword := filterKeyword s;
     topoSrc := topoSrc s |}.

Definition set_timeRange (v : TimeRange) (s : store) : store :=
  {| queryParams := queryParams s; timeRange := v; empty_ := empty_ s;
     activeMode := activeMode s; isLoading := isLoading s;
     tableData := tableData s; flameData := flameData s; unit_ := unit_ s;
     highlightId := highlightId s; filterKeyword := filterKeyword s;
     topoSrc := topoSrc s |}.

Definition set_empty (v : bool) (s : store) : store :=
  {| queryParams := queryParams s; timeRange := timeRange s; empty_ := v;
     activeMode := activeMode s; isLoading := isLoading s;
     tableData := tableData s; flameData := flameData s; unit_ := unit_ s;
     highlightId := highlightId s; filterKeyword := filterKeyword s;
     topoSrc := topoSrc s |}.

Definition set_activeMode (v : ViewModeType) (s : store) : store :=
  {| queryParams := queryParams s; timeRange := timeRange s; empty_ := empty_ s;
     activeMode := v; isLoading := isLoading s;
     tableData := tableData s; flameData := flameData s; unit_ := unit_ s;
     highlightId := highlightId s; filterKeyword := filterKeyword s;
     topoSrc := topoSrc s |}.

Definition set_isLoading (v : bool) (s : store) : store :=
  {| queryParams := queryParams s; timeRange := timeRange s; empty_ := empty_ s;
     activeMode := activeMode s; isLoading := v;
     tableData := tableData s; flameData := flameData s; unit_ := unit_ s;
     highlightId := highlightId s; filterKeyword := filterKeyword s;
     topoSrc := topoSrc s |}.

Definition set_tableData (v : list ProfilingTableItem) (s : store) : store :=
  {| queryParams := queryParams s; timeRange := timeRange s; empty_ := empty_ s;
     activeMode := activeMode s; isLoading := isLoading s;
     tableData := v; flameData := flameData s; unit_ := unit_ s;
     highlightId := highlightId s; filterKeyword := filterKeyword s;
     topoSrc := topoSrc s |}.

Definition set_flameData (v : option BaseDataType) (s : store) : store :=
  {| queryParams := queryParams s; timeRange := timeRange s; empty_ := empty_ s;
     activeMode := activeMode s; isLoading := isLoading s;
     tableData := tableData s; flameData := v; unit_ := unit_ s;
     highlightId := highlightId s; filterKeyword := filterKeyword s;
     topoSrc := topoSrc s |}.

Definition set_unit (v : jsstring) (s : store) : store :=
  {| queryParams := queryParams s; timeRange := timeRange s; empty_ := empty_ s;
     activeMode := activeMode s; isLoading := isLoading s;
     tableData := tableData s; flameData := flameData s; unit_ := v;
     highlightId := highlightId s; filterKeyword := filterKeyword s;
     topoSrc := topoSrc s |}.

Definition set_highlightId (v : Z) (s : store) : store :=
  {| queryParams := queryParams s; timeRange := timeRange s; empty_ := empty_ s;
     activeMode := activeMode s; isLoading := isLoading s;
     tableData := tableData s; flameData := flameData s; unit_ := unit_ s;
     highlightId := v; filterKeyword := filterKeyword s;
     topoSrc := topoSrc s |}.

Definition set_filterKeyword (v : option jsstring) (s : store) : store :=
  {| queryParams := queryParams s; timeRange := timeRange s; empty_ := empty_ s;
     activeMode := activeMode s; isLoading := isLoading s;
     tableData := tableData s; flameData := flameData s; unit_ := unit_ s;
     highlightId := highlightId s; filterKeyword := v;
     topoSrc := topoSrc s |}.

Definition set_topoSrc (v : jsstring) (s : store) : store :=
  {| queryParams := queryParams s; timeRange := timeRange s; empty_ := empty_ s;
     activeMode := activeMode s; isLoading := isLoading s;
     tableData := tableData s; flameData := flameData s; unit_ := unit_ s;
     highlightId := highlightId s; filterKeyword := filterKeyword s;
     topoSrc := v |}.

(** The refs as [setup] initialises them, for given inputs. *)
Definition initial_store (qp : gmap jsstring value) (tr : TimeRange) : store :=
  {| queryParams := qp; timeRange := tr; empty_ := true;
     activeMode := Combine; isLoading := false; tableData := [];
     flameData := Some (mkBaseDataType [] None []); unit_ := [];
     highlightId := (-1)%Z; filterKeyword := Some []; topoSrc := [] |}.

(** ** Handlers as programs

    An async handler reads and writes refs, may throw, and awaits
    [query(params)]: at [Query p k] the request [p] is issued and the
    handler is suspended until the promise settles, when [k] resumes it. *)
Inductive prog (A : Type) : Type :=
| Ret (a : A)
| Throw (e : exn)
| Get (k : store -> prog A)
| Put (s : store) (k : prog A)
| Query (p : gmap jsstring value) (k : settled -> prog A).

Arguments Ret {A} a.
Arguments Throw {A} e.
Arguments Get {A} k.
Arguments Put {A} s k.
Arguments Query {A} p k.

Fixpoint bind {A B : Type} (m : prog A) (f : A -> prog B) : prog B :=
  match m with
  | Ret a => f a
  | Throw e => Throw e
  | Get k => Get (fun s => bind (k s) f)
  | Put s k => Put s (bind k f)
  | Query p k => Query p (fun o => bind (k o) f)
  end.

(** [try { m } catch (e) { h e }]. *)
Fixpoint try_catch {A : Type} (m : prog A) (h : exn -> prog A) : prog A :=
  match m with
  | Ret a => Ret a
  | Throw e => h e
  | Get k => Get (fun s => try_catch (k s) h)
  | Put s k => Put s (try_catch k h)
  | Query p k => Query p (fun o => try_catch (k o) h)
  end.

#[local] Instance prog_ret : MRet prog := @Ret.
#[local] Instance prog_bind : MBind prog := fun A B f m => bind m f.

Definition get : prog store := Get Ret.
Definition modify (f : store -> store) : prog () := Get (fun s => Put (f s) (Ret tt)).

(** [await query(params).catch(() => false)]. *)
Definition query_catch_false (params : gmap jsstring value) : prog jsdata :=
  Query params (fun o =>
    match o with
    | Fulfilled data => Ret data
    | Rejected => Ret DFalse
    end).

(** [data.diagrams]: a [TypeError] on [null] and [undefined], [undefined]
    on [false]. *)
Definition get_diagrams (data : jsdata) : prog (option diagrams) :=
  match data with
  | DFalse => Ret None
  | DNullish => Throw TypeError
  | DObject ds => Ret ds
  end.

(** ** [getParams] *)

Definition getParams (s : store) (args : gmap jsstring value) : gmap jsstring value :=
  let '(start, end_) := handleTransformToTimestamp (timeRange s) in
  <[js "service_name" := VStr (js "fuxi_gin")]>
    (<[js "app_name" := VStr (js "profiling_bar")]>
       (<[js "end" := js_times end_ (10 ^ 6)]>
          (<[js "start" := js_times start (10 ^ 6)]>
             (queryParams s ∪ args)))).

Definition diagram_types (types : list string) : gmap jsstring value :=
  {[ js "diagram_types" := VArr (map (fun t => VStr (js t)) types) ]}.

(** ** [handleQuery] *)

Definition handleQuery : prog () :=
  try_catch
    (modify (set_isLoading true);;
     modify (set_highlightId (-1));;
     s ← get;
     let params := getParams s (diagram_types ["table"; "flamegraph"]%string) in
     data ← query_catch_false params;
     ds ← get_diagrams data;
     match ds with
     | Some d =>
         modify (set_unit (default [] (d_unit d)));;
         modify (set_tableData (default [] (table_data d)));;
         modify (set_flameData (flame_data d));;
         modify (set_empty false)
     | None => modify (set_empty true)
     end;;
     modify (set_isLoading false))
    (fun e =>
       modify (set_isLoading false);;
       modify (set_empty true)).

(** ** [handleModeChange] *)

Definition handleModeChange (val : ViewModeType) : prog () :=
  s ← get;
  if decide (val = activeMode s) then Ret tt
  else
    modify (set_highlightId (-1));;
    modify (set_activeMode val);;
    s ← get;
    if decide (val = Topo ∧ topoSrc s = []) then
      modify (set_isLoading true);;
      s ← get;
      let params := getParams s (diagram_types ["callgraph"]%string) in
      data ← query_catch_false params;
      ds ← get_diagrams data;
      match ds with
      | Some d => modify (set_topoSrc (default [] (call_graph_data d)))
      | None => Ret tt
      end;;
      modify (set_isLoading false)
    else Ret tt.

(** ** [handleSortChange] *)

Definition handleSortChange (sortKey : jsstring) : prog () :=
  s ← get;
  let params :=
    getParams s (<[js "sort" := VStr sortKey]> (diagram_types ["table"]%string)) in
  data ← query_catch_false params;
  ds ← get_diagrams data;
  match ds with
  | Some d =>
      modify (set_highlightId (-1));;
      modify (set_tableData (default [] (table_data d)))
  | None => Ret tt
  end.

(** ** Running a handler *)

(** Where a handler stands once it can run no further: it has returned,
    thrown, or is suspended on a request. *)
Inductive status (A : Type) : Type :=
| Returned (a : A)
| Threw (e : exn)
| Awaiting (p : gmap jsstring value) (k : settled -> prog A).

Arguments Returned {A} a.
Arguments Threw {A} e.
Arguments Awaiting {A} p k.

(** One synchronous stretch: from the store [s] up to the first [await]
    (or to the end). *)
Fixpoint run {A : Type} (m : prog A) (s : store) : store * status A :=
  match m with
  | Ret a => (s, Returned a)
  | Throw e => (s, Threw e)
  | Get k => run (k s) s
  | Put s' k => run k s'
  | Query p k => (s, Awaiting p k)
  end.

(** A whole call, in isolation: each request settles with the next element
    of [os] and nothing else touches the store in between. *)
Record call (A : Type) : Type := {
  final : store;
  requests : list (gmap jsstring value);
  result : status A
}.

Arguments final {A} c.
Arguments requests {A} c.
Arguments result {A} c.

Fixpoint exec {A : Type} (m : prog A) (os : list settled) (s : store) : call A :=
  match m with
  | Ret a => {| final := s; requests := []; result := Returned a |}
  | Throw e => {| final := s; requests := []; result := Threw e |}
  | Get k => exec (k s) os s
  | Put s' k => exec k os s'
  | Query p k =>
      match os with
      | [] => {| final := s; requests := [p]; result := Awaiting p k |}
      | o :: os' =>
          let c := exec (k o) os' s in
          {| final := final c; requests := p :: requests c; result := result c |}
      end
  end.

(** ** The component on the event loop

    Handlers run one synchronous stretch at a time; a suspended handler
    waits in [inflight] until its request settles, and other handlers may
    run meanwhile. Time is in milliseconds. *)

(** The handler a request or a suspended continuation belongs to. *)
Inductive origin := ByQuery | ByModeChange | BySortChange.

#[global] Instance origin_eq_dec : EqDecision origin.
Proof. solve_decision. Defined.

Record task := {
  t_origin : origin;
  t_resume : settled -> prog ()
}.

Record world := {
  refs : store;
  now : N;
  (** the pending timeout of the debounced [queryParams] watcher: when it
      fires *)
  timer : option N;
  inflight : list task;
  (** every request issued so far, oldest first *)
  sent : list (origin * gmap jsstring value);
  (** errors thrown out of a handler, which nothing catches *)
  unhandled : list exn
}.

(** Runs [m], started or resumed on behalf of handler [by_], for one
    stretch. *)
Definition advance (by_ : origin) (m : prog ()) (w : world) : world :=
  match run m (refs w) with
  | (s, Returned _) =>
      {| refs := s; now := now w; timer := timer w; inflight := inflight w;
         sent := sent w; unhandled := unhandled w |}
  | (s, Threw e) =>
      {| refs := s; now := now w; timer := timer w; inflight := inflight w;
         sent := sent w; unhandled := unhandled w ++ [e] |}
  | (s, Awaiting p k) =>
      {| refs := s; now := now w; timer := timer w;
         inflight := inflight w ++ [{| t_origin := by_; t_resume := k |}];
         sent := sent w ++ [(by_, p)]; unhandled := unhandled w |}
  end.

Definition with_refs (f : store -> store) (w : world) : world :=
  {| refs := f (refs w); now := now w; timer := timer w; inflight := inflight w;
     sent := sent w; unhandled := unhandled w |}.

(** The delay of [debounce(16, ...)]. *)
Definition debounce_delay : N := 16.

(** What happens to the component. [QueryParamsChanged] and
    [TimeRangeChanged] are one run of the watcher of that source: the
    scheduler calls a watcher once per flush in which its source has
    changed, with the value the source then has, however many assignments
    the synchronous stretch before the flush made. [Settle i o] settles
    the request of the [i]-th suspended handler. *)
Inductive event :=
| QueryParamsChanged (qp : gmap jsstring value)
| TimeRangeChanged (tr : TimeRange)
| ModeChange (val : ViewModeType)
| SortChange (sortKey : jsstring)
| KeywordChange (val : option jsstring)
| UpdateHighlightId (id : Z)
| Elapse (dt : N)
| Settle (i : nat) (o : settled).

Definition step (w : world) (ev : event) : world :=
  match ev with
  | QueryParamsChanged qp =>
      (* watch([() => props.queryParams], debounce(16, async () => handleQuery())):
         a call of the debounced function replaces the pending timeout *)
      {| refs := set_queryParams qp (refs w); now := now w;
         timer := Some (now w + debounce_delay); inflight := inflight w;
         sent := sent w; unhandled := unhandled w |}
  | TimeRangeChanged tr =>
      (* watch(() => toolsFormData.value.timeRange, () => { handleQuery(); }) *)
      advance ByQuery handleQuery (with_refs (set_timeRange tr) w)
  | ModeChange val => advance ByModeChange (handleModeChange val) w
  | SortChange sortKey => advance BySortChange (handleSortChange sortKey) w
  | KeywordChange val => with_refs (set_filterKeyword val) w
  | UpdateHighlightId id => with_refs (set_highlightId id) w
  | Elapse dt =>
      let w' :=
        {| refs := refs w; now := now w + dt; timer := timer w;
           inflight := inflight w; sent := sent w; unhandled := unhandled w |} in
      match timer w with
      | Some t =>
          if t <=? now w + dt then
            advance ByQuery handleQuery
              {| refs := refs w; now := now w + dt; timer := None;
                 inflight := inflight w; sent := sent w;
                 unhandled := unhandled w |}
          else w'
      | None => w'
      end
  | Settle i o =>
      match inflight w !! i with
      | Some t =>
          advance (t_origin t) (t_resume t o)
            {| refs := refs w; now := now w; timer := timer w;
               inflight := delete i (inflight w); sent := sent w;
               unhandled := unhandled w |}
      | None => w
      end
  end.

Definition run_events (w : world) (evs : list event) : world :=
  fold_left step evs w.

(** [setup]: the refs are initialised and the [queryParams] watcher, being
    [immediate], calls the debounced function once. *)
Definition setup (qp : gmap jsstring value) (tr : TimeRange) : world :=
  {| refs := initial_store qp tr; now := 0;
     timer := Some debounce_delay; inflight := []; sent := [];
     unhandled := [] |}.

(** The states the component can be in: those some sequence of events
    leads to from [setup]. *)
Inductive reachable : world -> Prop :=
| reachable_setup qp tr : reachable (setup qp tr)
| reachable_step w ev : reachable w -> reachable (step w ev).

(** The parameters of the requests handler [by_] has issued so far. *)
Definition sent_by (by_ : origin) (w : world) : list (gmap jsstring value) :=
  (filter (fun r => r.1 = by_) (sent w)).*2.

(** No [handleModeChange] call is suspended on its request. *)
Definition no_topo_fetch_pending (w : world) : Prop :=
  Forall (fun t => t_origin t <> ByModeChange) (inflight w).

(** What the handler [by_] leaves as it is once resumed; no handler
    writes the reactive inputs or the keyword. *)
Definition untouched (by_ : origin) (s s' : store) : Prop :=
  queryParams s' = queryParams s /\ timeRange s' = timeRange s /\
  filterKeyword s' = filterKeyword s /\
  match by_ with
  | ByQuery => topoSrc s' = topoSrc s /\ activeMode s' = activeMode s
  | ByModeChange =>
      tableData s' = tableData s /\ flameData s' = flameData s /\
      unit_ s' = unit_ s /\ empty_ s' = empty_ s /\
      activeMode s' = activeMode s /\ highlightId s' = highlightId s
  | BySortChange =>
      isLoading s' = isLoading s /\ empty_ s' = empty_ s /\
      flameData s' = flameData s /\ unit_ s' = unit_ s /\
      topoSrc s' = topoSrc s /\ activeMode s' = activeMode s
  end.

(** A continuation of handler [by_] runs to its end when resumed, issuing
    no further request, and stays within [untouched]. *)
Definition finishes (by_ : origin) (k : settled -> prog ()) : Prop :=
  forall o s,
    match run (k o) s with
    | (_, Awaiting _ _) => False
    | (s', _) => untouched by_ s s'
    end.

(** Every suspended continuation behaves as one of the handler it belongs
    to: it [finishes]. *)
Definition coherent (w : world) : Prop :=
  Forall (fun t => finishes (t_origin t) (t_resume t)) (inflight w).

(** The events that belong to [handleModeChange]: a mode change, and the
    settlement of a request one of its calls is suspended on. *)
Definition topo_event (w : world) (ev : event) : Prop :=
  match ev with
  | ModeChange _ => True
  | Settle i _ =>
      exists t, inflight w !! i = Some t /\ t_origin t = ByModeChange
  | _ => False
  end.

(** A burst of runs of the [queryParams] watcher: each pair is the time
    since the previous run and the [queryParams] it finds. *)
Definition burst (changes : list (N * gmap jsstring value)) : list event :=
  flat_map (fun c => [Elapse c.1; QueryParamsChanged c.2]) changes.

End Controller.

Arguments Ret {TimeRange ProfilingTableItem A} a.
Arguments Throw {TimeRange ProfilingTableItem A} e.
Arguments Get {TimeRange ProfilingTableItem A} k.
Arguments Put {TimeRange ProfilingTableItem A} s k.
Arguments Query {TimeRange ProfilingTableItem A} p k.
Arguments Returned {TimeRange ProfilingTableItem A} a.
Arguments Threw {TimeRange ProfilingTableItem A} e.
Arguments Awaiting {TimeRange ProfilingTableItem A} p k.
Arguments final {TimeRange ProfilingTableItem A} c.
Arguments requests {TimeRange ProfilingTableItem A} c.
Arguments result {TimeRange ProfilingTableItem A} c.

(** ** Sample inputs

    A time range given directly as epoch seconds, rows that are numbers,
    and a few stores, settlements and parameter records to run the
    handlers on. *)

Definition epoch_seconds (tr : Z * Z) : Z * Z := tr.

Definition sample_range : Z * Z := (1700000000, 1700003600)%Z.

Definition sample_params : gmap jsstring value :=
  {[ js "app_name" := VStr (js "my_app");
     js "service_name" := VStr (js "my_service");
     js "profile_type" := VStr (js "cpu") ]}.

Definition sample_store : @store (Z * Z) nat :=
  initial_store sample_params sample_range.

Definition sample_loaded : @store (Z * Z) nat :=
  set_empty false
    (set_unit (js "ms")
       (set_tableData [7%nat; 8%nat]
          (set_flameData (Some (mkBaseDataType (js "root") (Some []) (js "1")))
             sample_store))).

Definition sample_diagrams : @diagrams nat :=
  {| d_unit := Some (js "ns"); table_data := Some [1%nat; 2%nat; 3%nat];
     flame_data := Some (mkBaseDataType (js "total") None (js "0"));
     call_graph_data := Some (js "digraph") |}.

Definition sample_success : @settled nat :=
  Fulfilled (DObject (Some sample_diagrams)).

Definition sample_no_diagrams : @settled nat := Fulfilled (DObject None).

Definition sample_world : @world (Z * Z) nat :=
  {| refs := sample_loaded; now := 100; timer := None; inflight := [];
     sent := []; unhandled := [] |}.

(** The component, set up and left alone until its first fetch has
    settled. *)
Definition sample_started : @world (Z * Z) nat :=
  run_events epoch_seconds (setup sample_params sample_range)
    [Elapse 16; Settle 0 sample_success].

(** Then switched to the topology view, its callgraph request settled. *)
Definition sample_topo_cached : @world (Z * Z) nat :=
  run_events epoch_seconds sample_started
    [ModeChange Topo; Settle 0 sample_success].

(** Then given other parameters, the fetch they trigger settled, and
    switched to the table and back to the topology. *)
Definition sample_after_new_params : @world (Z * Z) nat :=
  run_events epoch_seconds sample_topo_cached
    [QueryParamsChanged {[ js "profile_type" := VStr (js "heap") ]};
     Elapse 16; Settle 0 sample_success;
     ModeChange Table; ModeChange Topo].

(** Switched to the topology twice under the same parameters, the first
    callgraph request having failed. *)
Definition sample_topo_retried : @world (Z * Z) nat :=
  run_events epoch_seconds sample_started
    [ModeChange Topo; Settle 0 Rejected; ModeChange Table; ModeChange Topo].

(** Two changes of the time range 5 ms apart, each followed by the run
    of its watcher. *)
Definition sample_two_ranges : @world (Z * Z) nat :=
  run_events epoch_seconds sample_started
    [TimeRangeChanged (1700000000, 1700000060)%Z; Elapse 5;
     TimeRangeChanged (1700000000, 1700000120)%Z].

(** ** [render]

    The tree [render] returns, as data: the [Loading] wrapper with its
    flag, the props [ChartTitle] is given from the state, and either the
    empty-state [Exception] or the graphs of the active mode, each with
    the props it is given from the state. The callbacks passed as props
    are the events of [step]. [textDirection], a ref no handler above
    touches, is an argument. *)

Section View.

Context {TimeRange ProfilingTableItem : Type}.

(** [this.$t], the translation function. *)
Context (t : jsstring -> jsstring).

Inductive graph :=
| TableGraph (data : list ProfilingTableItem) (unit_prop : jsstring)
    (textDirection : jsstring) (highlight : Z) (keyword : option jsstring)
| FrameGraph (textDirection : jsstring) (showGraphTools : bool)
    (data : option BaseDataType) (highlight : Z) (keywords : list jsstring)
| TopoGraph (src : jsstring).

Inductive content :=
| Exception (type description : jsstring)
| GraphContent (children : list graph).

Record view := {
  loading : bool;
  title_activeMode : ViewModeType;
  title_textDirection : jsstring;
  body : content
}.

(** [modes.includes(m)]. *)
Definition includes (modes : list ViewModeType) (m : ViewModeType) : bool :=
  bool_decide (m ∈ modes).

(** The key ['暂无数据'] of the empty-state description. *)
Definition no_data_key : jsstring := [26242; 26080; 25968; 25454].

Definition render (textDirection : jsstring)
    (s : @store TimeRange ProfilingTableItem) : view :=
  {| loading := isLoading s;
     title_activeMode := activeMode s;
     title_textDirection := textDirection;
     body :=
       if empty_ s then Exception (js "empty") (t no_data_key)
       else
         GraphContent
           ((if includes [Combine; Table] (activeMode s) then
               [TableGraph (tableData s) (unit_ s) textDirection
                  (highlightId s) (filterKeyword s)]
             else []) ++
            (if includes [Combine; Flame] (activeMode s) then
               [FrameGraph textDirection false (flameData s) (highlightId s)
                  (flameFilterKeywords (filterKeyword s))]
             else []) ++
            (if decide (Topo = activeMode s) then [TopoGraph (topoSrc s)]
             else [])) |}.

(** The settlement of a request a [handleQuery] call is suspended on. *)
Definition query_settlement
    (w : @world TimeRange ProfilingTableItem)
    (ev : @event TimeRange ProfilingTableItem) : Prop :=
  match ev with
  | Settle i _ => exists tk, inflight w !! i = Some tk /\ t_origin tk = ByQuery
  | _ => False
  end.

End View.

Section Requests.

Context {TimeRange ProfilingTableItem : Type}.
Context (handleTransformToTimestamp : TimeRange -> Z * Z).


End Requests.

(** What every request of the component looks like: the two bounds are
    products of whole seconds and 10^6 as [js_times] computes them, the
    two names are the hard-coded ones, and a diagram selector is
    present. *)
Definition well_formed_request (p : gmap jsstring value) : Prop :=
  (exists a b : Z,
     p !! js "start" = Some (js_times a (10 ^ 6)) /\
     p !! js "end" = Some (js_times b (10 ^ 6))) /\
  p !! js "app_name" = Some (VStr (js "profiling_bar")) /\
  p !! js "service_name" = Some (VStr (js "fuxi_gin")) /\
  is_Some (p !! js "diagram_types").

(** A translation that returns its key. *)
Definition sample_translate (key : jsstring) : jsstring := key.

(** Parameters that carry a diagram selector of their own. *)
Definition sample_selector_params : gmap jsstring value :=
  {[ js "diagram_types" := VArr [VStr (js "flamegraph")];
     js "sort" := VStr (js "total") ]}.

Definition sample_selector_store : @store (Z * Z) nat :=
  initial_store sample_selector_params sample_range.

(** * Properties *)

(** ** The functions on a few inputs *)

Example trim_both_ends : trim (js "  a b  ") = js "a b".
Proof. reflexivity. Qed.

Example trim_no_break_space : trim [160; 97; 12288] = js "a".
Proof. reflexivity. Qed.

Example flameFilterKeywords_blank : flameFilterKeywords (Some (js "   ")) = [].
Proof. reflexivity. Qed.

Example flameFilterKeywords_word : flameFilterKeywords (Some (js "main")) = [js "main"].
Proof. reflexivity. Qed.

Example charColor_latin : charColor (js "apm") = js "hsl(97, 50%, 50%)".
Proof. reflexivity. Qed.

Example charColor_wraps : charColor [20013; 25991] = js "hsl(213, 50%, 50%)".
Proof. reflexivity. Qed.

Example charColor_empty_string : charColor [] = js "hsl(NaN, 50%, 50%)".
Proof. reflexivity. Qed.

Example js_times_epoch : js_times 1700000000 (10 ^ 6) = VNum 1700000000000000.
Proof. reflexivity. Qed.

Example js_times_rounds :
  js_times 18014398509481 (10 ^ 6) = VNum 18014398509481000960.
Proof. vm_compute. reflexivity. Qed.

Example js_times_overflows : js_times (2 ^ 1023) (10 ^ 6) = VInfinity false.
Proof. vm_compute. reflexivity. Qed.

(** The success scenario of the spec, on the sample store. *)
Example handleQuery_sample_success :
  let c := exec (handleQuery epoch_seconds) [sample_success] sample_store in
  tableData (final c) = [1; 2; 3]%nat /\
  flameData (final c) = Some (mkBaseDataType (js "total") None (js "0")) /\
  unit_ (final c) = js "ns" /\
  empty_ (final c) = false /\
  isLoading (final c) = false /\
  requests c =
    [getParams epoch_seconds sample_store
       (diagram_types ["table"; "flamegraph"]%string)].
Proof. repeat split. Qed.

(** ** [trim] and [flameFilterKeywords] *)

Lemma trimStart_nil_iff (s : jsstring) :
  trimStart s = [] <-> forallb is_white_space s = true.
Proof.
  induction s as [|c s IH]; simpl.
  - split; reflexivity.
  - destruct (is_white_space c); simpl.
    + exact IH.
    + split; discriminate.
Qed.

Lemma trimStart_head (s : jsstring) (c : N) (r : jsstring) :
  trimStart s = c :: r -> is_white_space c = false.
Proof.
  induction s as [|a s IH]; simpl.
  - discriminate.
  - destruct (is_white_space a) eqn:Ha.
    + exact IH.
    + intros [= <- _]. exact Ha.
Qed.

Lemma trimStart_blank_nil (s : jsstring) :
  forallb is_white_space (trimStart s) = true -> trimStart s = [].
Proof.
  destruct (trimStart s) as [|c r] eqn:E; [reflexivity|].
  simpl. rewrite (trimStart_head s c r E). discriminate.
Qed.

Lemma forallb_rev_eq (f : N -> bool) (l : list N) :
  forallb f (rev l) = forallb f l.
Proof.
  induction l as [|a l IH]; simpl; [reflexivity|].
  rewrite forallb_app, IH. simpl.
  destruct (f a), (forallb f l); reflexivity.
Qed.

(** [trim] yields the empty string exactly on the strings made of white
    space only (the empty one among them). *)
Lemma trim_nil_iff (s : jsstring) :
  trim s = [] <-> forallb is_white_space s = true.
Proof.
  unfold trim, trimEnd. split.
  - intros H.
    assert (H1 : trimStart (rev (trimStart s)) = []).
    { destruct (trimStart (rev (trimStart s))) as [|x l]; [reflexivity|].
      simpl in H. destruct (rev l); discriminate. }
    apply trimStart_nil_iff in H1. rewrite forallb_rev_eq in H1.
    apply trimStart_nil_iff, trimStart_blank_nil, H1.
  - intros H. apply trimStart_nil_iff in H. rewrite H. reflexivity.
Qed.

(** C1, as the code has it: [flameFilterKeywords] is the empty list for an
    absent, empty or whitespace-only keyword, and otherwise the one-element
    list holding the keyword itself, as typed: it is not trimmed. *)
Theorem flameFilterKeywords_keeps_keyword (filterKeyword : option jsstring) :
  flameFilterKeywords filterKeyword =
  match filterKeyword with
  | None => []
  | Some k => if forallb is_white_space k then [] else [k]
  end.
Proof.
  destruct filterKeyword as [k|]; [|reflexivity].
  unfold flameFilterKeywords.
  destruct (forallb is_white_space k) eqn:E.
  - apply trim_nil_iff in E. rewrite E. reflexivity.
  - destruct (trim k) as [|c r] eqn:T.
    + apply trim_nil_iff in T. congruence.
    + reflexivity.
Qed.

(** C1, as the spec states it, fails on a keyword with a leading blank:
    [" a"] is not whitespace-only, and the list holds [" a"], not its trim
    ["a"]. *)
Lemma flameFilterKeywords_not_trimmed :
  forallb is_white_space (js " a") = false /\
  trim (js " a") = js "a" /\
  flameFilterKeywords (Some (js " a")) = [js " a"] /\
  flameFilterKeywords (Some (js " a")) <> [trim (js " a")].
Proof.
  repeat split; try reflexivity.
  vm_compute. discriminate.
Qed.

(** ** [charColor] *)

Lemma decimal_round_trip_below_360 (n : N) :
  n < 360 -> parse_decimal (decimal n) = Some n.
Proof.
  intros Hn.
  assert (Hall : forallb
            (fun i => bool_decide
               (parse_decimal (decimal (N.of_nat i)) = Some (N.of_nat i)))
            (seq 0 360) = true) by (vm_compute; reflexivity).
  rewrite forallb_forall in Hall.
  assert (Hin : In (N.to_nat n) (seq 0 360)) by (apply in_seq; lia).
  apply Hall in Hin. rewrite N2Nat.id in Hin.
  exact (proj1 (bool_decide_eq_true _) Hin).
Qed.

(** C10: on a string whose first code unit is [c], [charColor] returns
    [hsl(h, 50%, 50%)] with [h] the decimal numeral of [c mod 360], a hue
    below 360; the rest of the string plays no part, so strings with the
    same first character get the same colour. *)
Theorem charColor_first_char (c : N) (rest : jsstring) :
  c mod 360 < 360 /\
  charColor (c :: rest) =
    js "hsl(" ++ decimal (c mod 360) ++ js ", 50%, 50%)" /\
  parse_decimal (decimal (c mod 360)) = Some (c mod 360) /\
  forall rest' : jsstring, charColor (c :: rest') = charColor (c :: rest).
Proof.
  assert (Hlt : c mod 360 < 360) by (apply N.mod_upper_bound; discriminate).
  repeat split.
  - exact Hlt.
  - apply decimal_round_trip_below_360, Hlt.
Qed.

(** ** The controller *)

Section ControllerFacts.

Context {TimeRange ProfilingTableItem : Type}.
Context (handleTransformToTimestamp : TimeRange -> Z * Z).

Local Abbreviation store := (@store TimeRange ProfilingTableItem).
Local Abbreviation settled := (@settled ProfilingTableItem).
Local Abbreviation world := (@world TimeRange ProfilingTableItem).
Local Abbreviation event := (@event TimeRange ProfilingTableItem).
Local Abbreviation handleQuery := (handleQuery handleTransformToTimestamp).
Local Abbreviation handleModeChange := (handleModeChange handleTransformToTimestamp).
Local Abbreviation handleSortChange := (handleSortChange handleTransformToTimestamp).
Local Abbreviation step := (step handleTransformToTimestamp).
Local Abbreviation run_events := (run_events handleTransformToTimestamp).
Local Abbreviation reachable := (reachable handleTransformToTimestamp).

(** *** [getParams] *)

(** The merge, key by key: the two hard-coded names and the two bounds
    come last and win, then [queryParams], then the call's own [args]. *)
Lemma getParams_lookup (s : store) (args : gmap jsstring value) (k : jsstring) :
  getParams handleTransformToTimestamp s args !! k =
  if decide (k = js "service_name") then Some (VStr (js "fuxi_gin"))
  else if decide (k = js "app_name") then Some (VStr (js "profiling_bar"))
  else if decide (k = js "end") then
    Some (js_times (handleTransformToTimestamp (timeRange s)).2 (10 ^ 6))
  else if decide (k = js "start") then
    Some (js_times (handleTransformToTimestamp (timeRange s)).1 (10 ^ 6))
  else match queryParams s !! k with
       | Some v => Some v
       | None => args !! k
       end.
Proof.
  unfold getParams.
  destruct (handleTransformToTimestamp (timeRange s)) as [a b]. simpl.
  rewrite !lookup_insert.
  repeat (case_decide; subst; try congruence); try reflexivity.
  rewrite lookup_union.
  destruct (queryParams s !! k), (args !! k); reflexivity.
Qed.

Local Abbreviation getParams := (getParams handleTransformToTimestamp).



(** The other fields of [queryParams] reach the request as they are. *)
Lemma getParams_keeps_queryParams
    (s : store) (args : gmap jsstring value) (k : jsstring) (v : value) :
  k <> js "service_name" -> k <> js "app_name" ->
  k <> js "end" -> k <> js "start" ->
  queryParams s !! k = Some v ->
  getParams s args !! k = Some v.
Proof.
  intros H1 H2 H3 H4 Hk. rewrite getParams_lookup.
  repeat (case_decide; [congruence|]). rewrite Hk. reflexivity.
Qed.




Lemma js_times_exact (x y : Z) :
  (Z.abs (x * y) < 2 ^ 53)%Z -> js_times x y = VNum (x * y).
Proof.
  intros H. unfold js_times, binary64_round. cbv zeta.
  replace (Z.abs (x * y) <? 2 ^ 53)%Z with true by (symmetry; apply Z.ltb_lt, H).
  replace (Z.abs (x * y) <? 2 ^ 1024)%Z with true; [reflexivity|].
  symmetry. apply Z.ltb_lt. eapply Z.lt_trans; [exact H|]. reflexivity.
Qed.

(** *** [handleQuery] *)

(** C4: however the request settles (diagrams, no diagrams, a rejection,
    or a value whose [diagrams] cannot be read, which throws inside the
    [try]), [handleQuery] returns normally with [isLoading] false. This
    also holds when other handlers ran while it was suspended: resumed on
    any store, it ends with [isLoading] false. *)
Theorem handleQuery_always_clears_loading (s : store) (o : settled) :
  result (exec handleQuery [o] s) = Returned tt /\
  isLoading (final (exec handleQuery [o] s)) = false /\
  exists p k,
    run handleQuery s = (set_highlightId (-1) (set_isLoading true s), Awaiting p k) /\
    forall s2 : store, exists s3 : store,
      run (k o) s2 = (s3, Returned tt) /\ isLoading s3 = false.
Proof.
  split; [|split].
  - destruct o as [[| |[d|]]|]; reflexivity.
  - destruct o as [[| |[d|]]|]; reflexivity.
  - eexists _, _. split; [reflexivity|].
    intros s2. destruct o as [[| |[d|]]|]; cbn; eexists; split; reflexivity.
Qed.

(** C5: when the settlement carries no diagrams, [handleQuery] sets
    [empty], leaves [tableData], [flameData] and [unit] as they were, and
    ends with [isLoading] false. *)
Theorem handleQuery_without_diagrams (s : store) (o : settled) :
  payload o = None ->
  let c := exec handleQuery [o] s in
  result c = Returned tt /\
  empty_ (final c) = true /\
  isLoading (final c) = false /\
  tableData (final c) = tableData s /\
  flameData (final c) = flameData s /\
  unit_ (final c) = unit_ s.
Proof.
  intros Hp. destruct o as [[| |[d|]]|]; try discriminate Hp;
    cbn; repeat split; reflexivity.
Qed.

(** The success scenario of the spec: the three data refs take the
    response's values, [empty] and [isLoading] are cleared. *)
Lemma handleQuery_with_diagrams (s : store) (o : settled) (d : diagrams) :
  payload o = Some d ->
  let c := exec handleQuery [o] s in
  result c = Returned tt /\
  unit_ (final c) = default [] (d_unit d) /\
  tableData (final c) = default [] (table_data d) /\
  flameData (final c) = flame_data d /\
  empty_ (final c) = false /\
  isLoading (final c) = false /\
  highlightId (final c) = (-1)%Z.
Proof.
  intros Hp. destruct o as [[| |[d'|]]|]; try discriminate Hp.
  injection Hp as ->. cbn. repeat split; reflexivity.
Qed.

(** *** [handleSortChange] *)


(** C9: on every path (diagrams, no diagrams, a rejection, a thrown
    error) [handleSortChange] leaves [isLoading], [empty], [flameData],
    [unit], [topoSrc] and [activeMode] as they were; it writes nothing
    before it suspends, and resumed on any store it leaves these six refs
    of that store alone. *)
Theorem handleSortChange_frame (s : store) (sortKey : jsstring) (o : settled) :
  let c := exec (handleSortChange sortKey) [o] s in
  isLoading (final c) = isLoading s /\
  empty_ (final c) = empty_ s /\
  flameData (final c) = flameData s /\
  unit_ (final c) = unit_ s /\
  topoSrc (final c) = topoSrc s /\
  activeMode (final c) = activeMode s /\
  exists p k,
    run (handleSortChange sortKey) s = (s, Awaiting p k) /\
    forall s2 : store, untouched BySortChange s2 (run (k o) s2).1.
Proof.
  cbv zeta. repeat split; try (destruct o as [[| |[d|]]|]; reflexivity).
  eexists _, _. split; [reflexivity|].
  intros s2. destruct o as [[| |[d|]]|]; cbn; repeat split; reflexivity.
Qed.

(** *** [handleModeChange] *)


(** *** One stretch of each handler *)

Lemma handleQuery_suspends (s : store) :
  exists k,
    run handleQuery s =
      (set_highlightId (-1) (set_isLoading true s),
       Awaiting (getParams s (diagram_types ["table"; "flamegraph"]%string)) k) /\
    finishes ByQuery k.
Proof.
  eexists. split; [reflexivity|].
  intros o s2. destruct o as [[| |[d|]]|]; cbn; repeat split; reflexivity.
Qed.

Lemma handleSortChange_suspends (s : store) (sortKey : jsstring) :
  exists k,
    run (handleSortChange sortKey) s =
      (s, Awaiting
            (getParams s (<[js "sort" := VStr sortKey]> (diagram_types ["table"%string])))
            k) /\
    finishes BySortChange k.
Proof.
  eexists. split; [reflexivity|].
  intros o s2. destruct o as [[| |[d|]]|]; cbn; repeat split; reflexivity.
Qed.

Lemma handleModeChange_run (s : store) (val : ViewModeType) :
  exists k,
    run (handleModeChange val) s =
      (if decide (val = activeMode s) then (s, Returned tt)
       else if decide (val = Topo /\ topoSrc s = []) then
         (set_isLoading true (set_activeMode val (set_highlightId (-1) s)),
          Awaiting (getParams s (diagram_types ["callgraph"%string])) k)
       else (set_activeMode val (set_highlightId (-1) s), Returned tt)) /\
    finishes ByModeChange k.
Proof.
  eexists. split.
  - unfold handleModeChange. cbn.
    destruct (decide (val = activeMode s)); [reflexivity|]. cbn.
    destruct (decide (val = Topo /\ topoSrc s = [])); reflexivity.
  - intros o s2. destruct o as [[| |[d|]]|]; cbn; repeat split; reflexivity.
Qed.

(** *** The event loop *)

Lemma advance_handleQuery (w : world) :
  exists k,
    finishes ByQuery k /\
    advance ByQuery handleQuery w =
      {| refs := set_highlightId (-1) (set_isLoading true (refs w));
         now := now w; timer := timer w;
         inflight := inflight w ++ [{| t_origin := ByQuery; t_resume := k |}];
         sent := sent w ++
           [(ByQuery, getParams (refs w) (diagram_types ["table"; "flamegraph"]%string))];
         unhandled := unhandled w |}.
Proof.
  destruct (handleQuery_suspends (refs w)) as [k [Hr Hk]].
  exists k. split; [exact Hk|]. unfold advance. rewrite Hr. reflexivity.
Qed.

Lemma advance_handleSortChange (w : world) (sortKey : jsstring) :
  exists k,
    finishes BySortChange k /\
    advance BySortChange (handleSortChange sortKey) w =
      {| refs := refs w; now := now w; timer := timer w;
         inflight := inflight w ++ [{| t_origin := BySortChange; t_resume := k |}];
         sent := sent w ++
           [(BySortChange,
             getParams (refs w)
               (<[js "sort" := VStr sortKey]> (diagram_types ["table"%string])))];
         unhandled := unhandled w |}.
Proof.
  destruct (handleSortChange_suspends (refs w) sortKey) as [k [Hr Hk]].
  exists k. split; [exact Hk|]. unfold advance. rewrite Hr. reflexivity.
Qed.

Lemma advance_handleModeChange (w : world) (val : ViewModeType) :
  exists k,
    finishes ByModeChange k /\
    advance ByModeChange (handleModeChange val) w =
      if decide (val = activeMode (refs w)) then w
      else if decide (val = Topo /\ topoSrc (refs w) = []) then
        {| refs := set_isLoading true
                     (set_activeMode val (set_highlightId (-1) (refs w)));
           now := now w; timer := timer w;
           inflight := inflight w ++ [{| t_origin := ByModeChange; t_resume := k |}];
           sent := sent w ++
             [(ByModeChange, getParams (refs w) (diagram_types ["callgraph"%string]))];
           unhandled := unhandled w |}
      else with_refs (fun s => set_activeMode val (set_highlightId (-1) s)) w.
Proof.
  destruct (handleModeChange_run (refs w) val) as [k [Hr Hk]].
  exists k. split; [exact Hk|]. unfold advance. rewrite Hr.
  destruct (decide (val = activeMode (refs w))); [destruct w; reflexivity|].
  destruct (decide (val = Topo /\ topoSrc (refs w) = [])); reflexivity.
Qed.

(** Resuming a continuation that [finishes]: only the refs change, within
    [untouched], or an error goes unhandled. *)
Lemma advance_finishes (by_ : origin) (k : settled -> prog ()) (o : settled) (w : world) :
  finishes by_ k ->
  let w' := advance by_ (k o) w in
  untouched by_ (refs w) (refs w') /\
  now w' = now w /\ timer w' = timer w /\
  inflight w' = inflight w /\ sent w' = sent w.
Proof.
  intros Hk. specialize (Hk o (refs w)). cbv zeta. unfold advance.
  destruct (run (k o) (refs w)) as [s [a|e|p k']]; cbn;
    [| |contradiction]; repeat split; try reflexivity; apply Hk.
Qed.

Lemma step_coherent (w : world) (ev : event) :
  coherent w -> coherent (step w ev).
Proof.
  unfold coherent. intros Hc.
  destruct ev as [qp|tr|val|key|kw|id|dt|i o]; unfold step; cbv beta iota zeta.
  - exact Hc.
  - destruct (advance_handleQuery (with_refs (set_timeRange tr) w)) as [k [Hk ->]].
    cbn. apply Forall_app. split; [exact Hc|]. repeat constructor. exact Hk.
  - destruct (advance_handleModeChange w val) as [k [Hk ->]].
    repeat case_decide; cbn; try exact Hc.
    apply Forall_app. split; [exact Hc|]. repeat constructor. exact Hk.
  - destruct (advance_handleSortChange w key) as [k [Hk ->]].
    cbn. apply Forall_app. split; [exact Hc|]. repeat constructor. exact Hk.
  - exact Hc.
  - exact Hc.
  - destruct (timer w) as [t|]; [|exact Hc].
    destruct (t <=? now w + dt); [|exact Hc].
    match goal with |- context [advance ByQuery _ ?w0] =>
      destruct (advance_handleQuery w0) as [k [Hk ->]] end.
    cbn. apply Forall_app. split; [exact Hc|]. repeat constructor. exact Hk.
  - destruct (inflight w !! i) as [t|] eqn:Ht; [|exact Hc].
    pose proof (Forall_lookup_1 _ _ _ _ Hc Ht) as Hk. cbn in Hk.
    match goal with |- context [advance _ _ ?w0] =>
      destruct (advance_finishes (t_origin t) (t_resume t) o w0 Hk)
        as (_ & _ & _ & -> & _) end.
    cbn. apply Forall_delete, Hc.
Qed.

Lemma reachable_coherent (w : world) : reachable w -> coherent w.
Proof.
  induction 1 as [qp tr|w ev _ IH].
  - constructor.
  - apply step_coherent, IH.
Qed.

Lemma reachable_run_events (w : world) (evs : list event) :
  reachable w -> reachable (run_events w evs).
Proof.
  revert w. induction evs as [|ev evs IH]; intros w Hw; [exact Hw|].
  apply IH. constructor. exact Hw.
Qed.

(** *** Who fetches what *)

Lemma sent_by_snoc (by_ o : origin) (p : gmap jsstring value)
    (l : list (origin * gmap jsstring value)) :
  (filter (fun r => r.1 = by_) (l ++ [(o, p)])).*2 =
  (filter (fun r => r.1 = by_) l).*2 ++ (if decide (o = by_) then [p] else []).
Proof.
  rewrite filter_app, fmap_app. f_equal.
  rewrite filter_cons, filter_nil. simpl.
  destruct (decide (o = by_)); reflexivity.
Qed.

(** Events that are not [handleModeChange]'s leave [topoSrc] and issue no
    callgraph request: only [handleModeChange] fetches the topology, and a
    table/flame fetch does not reset it. *)
Lemma step_not_topo (w : world) (ev : event) :
  coherent w -> ~ topo_event w ev ->
  topoSrc (refs (step w ev)) = topoSrc (refs w) /\
  sent_by ByModeChange (step w ev) = sent_by ByModeChange w /\
  (no_topo_fetch_pending w -> no_topo_fetch_pending (step w ev)).
Proof.
  unfold sent_by, no_topo_fetch_pending. intros Hc Hev.
  destruct ev as [qp|tr|val|key|kw|id|dt|i o]; unfold step; cbv beta iota zeta.
  - repeat split; auto.
  - destruct (advance_handleQuery (with_refs (set_timeRange tr) w)) as [k [Hk ->]].
    cbn. rewrite sent_by_snoc, app_nil_r. repeat split.
    intros Hp. apply Forall_app. split; [exact Hp|]. repeat constructor. discriminate.
  - contradiction Hev. exact I.
  - destruct (advance_handleSortChange w key) as [k [Hk ->]].
    cbn. rewrite sent_by_snoc, app_nil_r. repeat split.
    intros Hp. apply Forall_app. split; [exact Hp|]. repeat constructor. discriminate.
  - repeat split; auto.
  - repeat split; auto.
  - destruct (timer w) as [t|]; [|repeat split; auto].
    destruct (t <=? now w + dt); [|repeat split; auto].
    match goal with |- context [advance ByQuery _ ?w0] =>
      destruct (advance_handleQuery w0) as [k [Hk ->]] end.
    cbn. rewrite sent_by_snoc, app_nil_r. repeat split.
    intros Hp. apply Forall_app. split; [exact Hp|]. repeat constructor. discriminate.
  - destruct (inflight w !! i) as [t|] eqn:Ht; [|repeat split; auto].
    pose proof (Forall_lookup_1 _ _ _ _ Hc Ht) as Hk. cbn in Hk.
    assert (Hne : t_origin t <> ByModeChange).
    { intros Heq. apply Hev. exists t. split; [exact Ht|exact Heq]. }
    match goal with |- context [advance _ _ ?w0] =>
      destruct (advance_finishes (t_origin t) (t_resume t) o w0 Hk)
        as ((_ & _ & _ & Hu) & _ & _ & -> & ->) end.
    cbn in *. repeat split.
    + destruct (t_origin t); [apply Hu|congruence|apply Hu].
    + intros Hp. apply Forall_delete, Hp.
Qed.

(** A mode change writes no table or flame data, and sends at most the
    callgraph request. *)
Lemma step_mode_change (w : world) (val : ViewModeType) :
  let w' := step w (ModeChange val) in
  tableData (refs w') = tableData (refs w) /\
  flameData (refs w') = flameData (refs w) /\
  unit_ (refs w') = unit_ (refs w) /\
  sent w' = sent w ++
    (if decide (val <> activeMode (refs w) /\ val = Topo /\ topoSrc (refs w) = [])
     then [(ByModeChange, getParams (refs w) (diagram_types ["callgraph"%string]))]
     else []).
Proof.
  cbv zeta. unfold step.
  destruct (advance_handleModeChange w val) as [k [Hk ->]].
  destruct (decide (val = activeMode (refs w))) as [Heq|Hne].
  { rewrite decide_False by tauto. rewrite app_nil_r. repeat split. }
  destruct (decide (val = Topo /\ topoSrc (refs w) = [])) as [Ht|Hn]; cbn.
  - rewrite decide_True by tauto. repeat split.
  - rewrite decide_False by tauto. rewrite app_nil_r. repeat split.
Qed.

(** Nor does the settlement of a mode change's request. *)
Lemma step_settle_mode_change (w : world) (i : nat) (t : task) (o : settled) :
  coherent w -> inflight w !! i = Some t -> t_origin t = ByModeChange ->
  let w' := step w (Settle i o) in
  tableData (refs w') = tableData (refs w) /\
  flameData (refs w') = flameData (refs w) /\
  unit_ (refs w') = unit_ (refs w) /\
  sent w' = sent w.
Proof.
  intros Hc Ht Ho. cbv zeta. unfold step. rewrite Ht.
  pose proof (Forall_lookup_1 _ _ _ _ Hc Ht) as Hk. cbn in Hk.
  match goal with |- context [advance _ _ ?w0] =>
    destruct (advance_finishes (t_origin t) (t_resume t) o w0 Hk)
      as ((_ & _ & _ & Hu) & _ & _ & _ & ->) end.
  rewrite Ho in Hu |- *. cbn in Hu. repeat split; apply Hu.
Qed.

(** With a topology cached and no callgraph request in flight, no event
    changes [topoSrc] or sends a callgraph request. *)
Lemma step_cached (w : world) (ev : event) :
  coherent w -> no_topo_fetch_pending w -> topoSrc (refs w) <> [] ->
  topoSrc (refs (step w ev)) = topoSrc (refs w) /\
  sent_by ByModeChange (step w ev) = sent_by ByModeChange w /\
  no_topo_fetch_pending (step w ev).
Proof.
  intros Hc Hp Hsrc.
  assert (Hgen : ~ topo_event w ev ->
    topoSrc (refs (step w ev)) = topoSrc (refs w) /\
    sent_by ByModeChange (step w ev) = sent_by ByModeChange w /\
    no_topo_fetch_pending (step w ev)).
  { intros Hev. destruct (step_not_topo w ev Hc Hev) as (H1 & H2 & H3).
    repeat split; auto. }
  destruct ev as [qp|tr|val|key|kw|id|dt|i o];
    try (apply Hgen; intros []; fail).
  - unfold step. destruct (advance_handleModeChange w val) as [k [Hk ->]].
    destruct (decide (val = activeMode (refs w))); [repeat split; auto|].
    rewrite decide_False by tauto. repeat split. exact Hp.
  - apply Hgen. intros (t & Ht & Ho).
    exact (Forall_lookup_1 _ _ _ _ Hp Ht Ho).
Qed.

Lemma run_events_cached (evs : list event) (w : world) :
  coherent w -> no_topo_fetch_pending w -> topoSrc (refs w) <> [] ->
  topoSrc (refs (run_events w evs)) = topoSrc (refs w) /\
  sent_by ByModeChange (run_events w evs) = sent_by ByModeChange w.
Proof.
  revert w. induction evs as [|ev evs IH]; intros w Hc Hp Hsrc; [split; reflexivity|].
  destruct (step_cached w ev Hc Hp Hsrc) as (H1 & H2 & H3).
  cbn. rewrite <- H1, <- H2. apply IH.
  - apply step_coherent, Hc.
  - exact H3.
  - rewrite H1. exact Hsrc.
Qed.

(** C3, as the code has it. In every state the component can reach:
    a mode change, and the settlement of its request, write no table or
    flame data, and a mode change sends at most one request, the callgraph
    one, exactly when it switches to [Topo] with [topoSrc] empty; every
    other event (a parameter change and the table/flame fetch it triggers
    among them) leaves [topoSrc] as it is, so a parameter change does not
    reset the cached topology; and once a topology is cached, with no
    callgraph request in flight, no sequence of events changes [topoSrc]
    or sends another callgraph request. *)
Theorem topology_fetched_lazily_never_reset (w : world) :
  reachable w ->
  (forall val : ViewModeType,
     let w' := step w (ModeChange val) in
     tableData (refs w') = tableData (refs w) /\
     flameData (refs w') = flameData (refs w) /\
     unit_ (refs w') = unit_ (refs w) /\
     sent w' = sent w ++
       (if decide (val <> activeMode (refs w) /\ val = Topo /\ topoSrc (refs w) = [])
        then [(ByModeChange, getParams (refs w) (diagram_types ["callgraph"%string]))]
        else [])) /\
  (forall (i : nat) (t : task) (o : settled),
     inflight w !! i = Some t -> t_origin t = ByModeChange ->
     let w' := step w (Settle i o) in
     tableData (refs w') = tableData (refs w) /\
     flameData (refs w') = flameData (refs w) /\
     unit_ (refs w') = unit_ (refs w) /\
     sent w' = sent w) /\
  (forall ev : event,
     ~ topo_event w ev ->
     topoSrc (refs (step w ev)) = topoSrc (refs w) /\
     sent_by ByModeChange (step w ev) = sent_by ByModeChange w) /\
  (topoSrc (refs w) <> [] -> no_topo_fetch_pending w ->
   forall evs : list event,
     topoSrc (refs (run_events w evs)) = topoSrc (refs w) /\
     sent_by ByModeChange (run_events w evs) = sent_by ByModeChange w).
Proof.
  intros Hw. pose proof (reachable_coherent w Hw) as Hc.
  split; [|split; [|split]].
  - intros val. apply step_mode_change.
  - intros i t o Ht Ho. apply (step_settle_mode_change w i t o Hc Ht Ho).
  - intros ev Hev. destruct (step_not_topo w ev Hc Hev) as (H1 & H2 & _).
    split; assumption.
  - intros Hsrc Hp evs. apply run_events_cached; assumption.
Qed.

(** *** The two watchers *)

Lemma last_cons_default (A : Type) (a d : A) (l : list A) :
  List.last (a :: l) d = List.last l a.
Proof.
  revert a d. induction l as [|b l IH]; intros a d; [reflexivity|].
  change (List.last (b :: l) d = List.last (b :: l) a).
  rewrite !IH. reflexivity.
Qed.

(** A parameter change followed by further changes less than 16 ms apart
    sends nothing: it leaves the last parameters in place and a timeout
    due 16 ms after the last change. *)
Lemma burst_keeps_one_timeout
    (changes : list (N * gmap jsstring value)) (w : world) (qp0 : gmap jsstring value) :
  Forall (fun c => c.1 < debounce_delay) changes ->
  let w' := run_events w (QueryParamsChanged qp0 :: burst changes) in
  refs w' = set_queryParams (List.last changes.*2 qp0) (refs w) /\
  timer w' = Some (now w' + debounce_delay) /\
  sent w' = sent w /\
  inflight w' = inflight w.
Proof.
  revert w qp0. induction changes as [|[dt qp1] changes IH]; intros w qp0 Hgaps.
  - cbn. repeat split.
  - inversion Hgaps as [|c cs Hdt Hrest]; subst. cbn in Hdt.
    set (w1 := {| refs := refs w; now := now w + dt; timer := timer w;
                  inflight := inflight w; sent := sent w;
                  unhandled := unhandled w |}).
    assert (Heq : run_events w (QueryParamsChanged qp0 :: burst ((dt, qp1) :: changes))
                  = run_events w1 (QueryParamsChanged qp1 :: burst changes)).
    { cbn. replace (now w + debounce_delay <=? now w + dt) with false; [reflexivity|].
      symmetry. apply N.leb_gt. lia. }
    cbv zeta. rewrite Heq.
    destruct (IH w1 qp1 Hrest) as (H1 & H2 & H3 & H4).
    rewrite fmap_cons, last_cons_default. repeat split; assumption.
Qed.

(** C8, as the code has it: successive runs of the [queryParams] watcher
    less than 16 ms apart collapse into one request, sent once 16 ms have
    passed since the last of them and built from the last parameters; the
    watcher of the time range is not debounced: each run of it (the
    scheduler makes one per flush in which the range has changed) sends
    its request at once and leaves the pending timeout alone. *)
Theorem only_parameter_changes_debounced
    (w : world) (qp0 : gmap jsstring value)
    (changes : list (N * gmap jsstring value)) (d : N) :
  Forall (fun c => c.1 < debounce_delay) changes ->
  debounce_delay <= d ->
  (let w' := run_events w (QueryParamsChanged qp0 :: burst changes ++ [Elapse d]) in
   sent w' = sent w ++
     [(ByQuery,
       getParams (set_queryParams (List.last changes.*2 qp0) (refs w))
         (diagram_types ["table"; "flamegraph"]%string))] /\
   timer w' = None) /\
  (forall tr : TimeRange,
     let w' := step w (TimeRangeChanged tr) in
     sent w' = sent w ++
       [(ByQuery,
         getParams (set_timeRange tr (refs w))
           (diagram_types ["table"; "flamegraph"]%string))] /\
     timer w' = timer w).
Proof.
  intros Hgaps Hd. split.
  - cbv zeta. unfold run_events.
    rewrite app_comm_cons, fold_left_app.
    destruct (burst_keeps_one_timeout changes w qp0 Hgaps) as (H1 & H2 & H3 & H4).
    unfold run_events in H1, H2, H3, H4.
    set (w1 := fold_left step (QueryParamsChanged qp0 :: burst changes) w) in *.
    clearbody w1.
    cbn [fold_left]. unfold step. rewrite H2.
    replace (now w1 + debounce_delay <=? now w1 + d) with true
      by (symmetry; apply N.leb_le; lia).
    match goal with |- context [advance ByQuery _ ?w0] =>
      destruct (advance_handleQuery w0) as [k [Hk ->]] end.
    cbn. rewrite H1, H3. split; reflexivity.
  - intros tr. cbv zeta. unfold step.
    destruct (advance_handleQuery (with_refs (set_timeRange tr) w)) as [k [Hk ->]].
    cbn. split; reflexivity.
Qed.

End ControllerFacts.

(** ** The properties on the sample inputs *)

(** C2 fails on the code: with [app_name] and [service_name] supplied in
    [queryParams], [getParams] still sends the two hard-coded names (the
    other supplied field and the microsecond bounds are as the claim
    says). *)
Theorem getParams_overrides_supplied_names :
  queryParams sample_store !! js "app_name" = Some (VStr (js "my_app")) /\
  queryParams sample_store !! js "service_name" = Some (VStr (js "my_service")) /\
  getParams epoch_seconds sample_store ∅ !! js "app_name" =
    Some (VStr (js "profiling_bar")) /\
  getParams epoch_seconds sample_store ∅ !! js "service_name" =
    Some (VStr (js "fuxi_gin")) /\
  getParams epoch_seconds sample_store ∅ !! js "profile_type" =
    Some (VStr (js "cpu")) /\
  getParams epoch_seconds sample_store ∅ !! js "start" =
    Some (VNum 1700000000000000) /\
  getParams epoch_seconds sample_store ∅ !! js "end" =
    Some (VNum 1700003600000000).
Proof. repeat split; vm_compute; reflexivity. Qed.

Lemma handleQuery_without_diagrams_witness :
  payload (@Rejected nat) = None /\
  let c := exec (handleQuery epoch_seconds) [Rejected] sample_loaded in
  result c = Returned tt /\
  empty_ (final c) = true /\
  isLoading (final c) = false /\
  tableData (final c) = tableData sample_loaded /\
  flameData (final c) = flameData sample_loaded /\
  unit_ (final c) = unit_ sample_loaded.
Proof.
  split; [reflexivity|].
  apply (handleQuery_without_diagrams epoch_seconds sample_loaded Rejected).
  reflexivity.
Defined.

(** C3, as the spec states it, fails twice. A parameter change does not
    reset the cached topology: with ["digraph"] cached, new parameters and
    their fetch leave [topoSrc] as it is, and switching back to [Topo]
    sends no second callgraph request. And under unchanged parameters the
    topology is fetched again whenever [topoSrc] is still empty: after a
    failed callgraph request, switching away and back sends a second one. *)
Lemma parameter_change_keeps_topology :
  topoSrc (refs sample_topo_cached) = js "digraph" /\
  length (sent_by ByModeChange sample_topo_cached) = 1%nat /\
  queryParams (refs sample_topo_cached) !! js "profile_type" = Some (VStr (js "cpu")) /\
  queryParams (refs sample_after_new_params) !! js "profile_type" =
    Some (VStr (js "heap")) /\
  activeMode (refs sample_after_new_params) = Topo /\
  topoSrc (refs sample_after_new_params) = js "digraph" /\
  topoSrc (refs sample_after_new_params) <> [] /\
  length (sent_by ByModeChange sample_after_new_params) = 1%nat /\
  queryParams (refs sample_topo_retried) = queryParams (refs sample_started) /\
  length (sent_by ByModeChange sample_topo_retried) = 2%nat.
Proof. repeat split; vm_compute; (reflexivity || discriminate). Qed.

Lemma topology_fetched_lazily_witness :
  reachable epoch_seconds sample_topo_cached /\
  topoSrc (refs sample_topo_cached) <> [] /\
  no_topo_fetch_pending sample_topo_cached /\
  forall evs : list event,
    topoSrc (refs (run_events epoch_seconds sample_topo_cached evs)) =
      topoSrc (refs sample_topo_cached) /\
    sent_by ByModeChange (run_events epoch_seconds sample_topo_cached evs) =
      sent_by ByModeChange sample_topo_cached.
Proof.
  assert (Hr : reachable epoch_seconds sample_topo_cached).
  { unfold sample_topo_cached, sample_started.
    do 2 apply reachable_run_events. apply reachable_setup. }
  assert (Hs : topoSrc (refs sample_topo_cached) <> []) by (vm_compute; discriminate).
  assert (Hp : no_topo_fetch_pending sample_topo_cached) by (vm_compute; constructor).
  repeat split; try assumption;
    apply (topology_fetched_lazily_never_reset epoch_seconds sample_topo_cached Hr);
    assumption.
Defined.

(** C8, as the spec states it, fails for the time range: two changes of
    it 5 ms apart, which reach the watcher in two flushes, have sent two
    requests, not one, by the time of the second. *)
Lemma time_range_changes_not_collapsed :
  timer sample_started = None /\
  now sample_two_ranges = now sample_started + 5 /\
  (sent sample_two_ranges).*1 = (sent sample_started).*1 ++ [ByQuery; ByQuery] /\
  length (sent sample_two_ranges) = (length (sent sample_started) + 2)%nat /\
  length (sent sample_two_ranges) <> (length (sent sample_started) + 1)%nat.
Proof. repeat split; vm_compute; (reflexivity || discriminate). Qed.

Lemma only_parameter_changes_debounced_witness :
  Forall (fun c : N * gmap jsstring value => c.1 < debounce_delay)
    [(5, ∅); (15, sample_params)] /\
  debounce_delay <= 16 /\
  (let w' := run_events epoch_seconds sample_world
               (QueryParamsChanged ∅ :: burst [(5, ∅); (15, sample_params)]
                ++ [Elapse 16]) in
   sent w' = sent sample_world ++
     [(ByQuery,
       getParams epoch_seconds
         (set_queryParams (List.last [(5, ∅); (15, sample_params)].*2 ∅)
            (refs sample_world))
         (diagram_types ["table"; "flamegraph"]%string))] /\
   timer w' = None).
Proof.
  assert (Hg : Forall (fun c : N * gmap jsstring value => c.1 < debounce_delay)
                 [(5, ∅); (15, sample_params)])
    by (repeat constructor).
  assert (Hd : debounce_delay <= 16) by (unfold debounce_delay; lia).
  split; [exact Hg|]. split; [exact Hd|].
  apply (only_parameter_changes_debounced epoch_seconds sample_world ∅
           [(5, ∅); (15, sample_params)] 16 Hg Hd).
Defined.





(** ** More on [charColor] *)

Lemma decimal_below_360_inj (n m : N) :
  n < 360 -> m < 360 -> decimal n = decimal m -> n = m.
Proof.
  intros Hn Hm H.
  apply decimal_round_trip_below_360 in Hn, Hm.
  rewrite H in Hn. congruence.
Qed.

Lemma decimal_below_360_not_NaN (n : N) : n < 360 -> decimal n <> js "NaN".
Proof.
  intros Hn H. apply decimal_round_trip_below_360 in Hn.
  rewrite H in Hn. discriminate Hn.
Qed.

(** X1: Two strings get the same colour exactly when their hues agree: both
    empty (the hue is [NaN], the result [hsl(NaN, 50%, 50%)]), or both
    non-empty with first code units congruent modulo 360. So first
    characters less than 360 apart, all of ASCII among them, never share
    a colour, and the empty string shares its result with no other
    string. *)
Theorem charColor_same_colour_iff (s1 s2 : jsstring) :
  charColor s1 = charColor s2 <->
  js_mod (charCodeAt0 s1) 360 = js_mod (charCodeAt0 s2) 360.
Proof.
  unfold charColor. cbv zeta. split.
  - intros H. apply app_inv_head, app_inv_tail in H.
    destruct s1 as [|c1 r1], s2 as [|c2 r2]; cbn in *.
    + reflexivity.
    + symmetry in H. apply decimal_below_360_not_NaN in H; [contradiction|].
      apply N.mod_upper_bound. discriminate.
    + apply decimal_below_360_not_NaN in H; [contradiction|].
      apply N.mod_upper_bound. discriminate.
    + f_equal. apply decimal_below_360_inj; try exact H;
        apply N.mod_upper_bound; discriminate.
  - intros ->. reflexivity.
Qed.

(** ** More on the controller *)

Section ControllerMore.

Context {TimeRange ProfilingTableItem : Type}.
Context (handleTransformToTimestamp : TimeRange -> Z * Z).

Local Abbreviation store := (@store TimeRange ProfilingTableItem).
Local Abbreviation settled := (@settled ProfilingTableItem).
Local Abbreviation world := (@world TimeRange ProfilingTableItem).
Local Abbreviation event := (@event TimeRange ProfilingTableItem).
Local Abbreviation handleQuery := (handleQuery handleTransformToTimestamp).
Local Abbreviation handleModeChange := (handleModeChange handleTransformToTimestamp).
Local Abbreviation handleSortChange := (handleSortChange handleTransformToTimestamp).
Local Abbreviation step := (step handleTransformToTimestamp).
Local Abbreviation run_events := (run_events handleTransformToTimestamp).
Local Abbreviation reachable := (reachable handleTransformToTimestamp).

(** X2: [getParams] drops no field and adds exactly four: the request has the
    fields of [queryParams], those of [args], and [start], [end],
    [app_name], [service_name]; where a field of [args] is also a field
    of [queryParams], the request has the value of [queryParams]. *)
Theorem getParams_fields (s : store) (args : gmap jsstring value) :
  dom (getParams handleTransformToTimestamp s args) =
    {[js "service_name"; js "app_name"; js "end"; js "start"]}
    ∪ dom (queryParams s) ∪ dom args /\
  forall (k : jsstring) (v a : value),
    k <> js "service_name" -> k <> js "app_name" ->
    k <> js "end" -> k <> js "start" ->
    queryParams s !! k = Some v -> args !! k = Some a ->
    getParams handleTransformToTimestamp s args !! k = Some v.
Proof.
  split.
  - unfold getParams.
    destruct (handleTransformToTimestamp (timeRange s)) as [a b].
    rewrite !dom_insert_L, dom_union_L.
    apply set_eq. intros x. rewrite !elem_of_union. tauto.
  - intros k v a H1 H2 H3 H4 Hq _.
    apply getParams_keeps_queryParams; assumption.
Qed.

Local Abbreviation getParams := (getParams handleTransformToTimestamp).

Lemma requests_handleQuery (s : store) (o : settled) :
  requests (exec handleQuery [o] s) =
  [getParams s (diagram_types ["table"; "flamegraph"]%string)].
Proof. destruct o as [[| |[d|]]|]; reflexivity. Qed.

Lemma requests_handleSortChange (s : store) (sortKey : jsstring) (o : settled) :
  requests (exec (handleSortChange sortKey) [o] s) =
  [getParams s (<[js "sort" := VStr sortKey]> (diagram_types ["table"%string]))].
Proof. destruct o as [[| |[d|]]|]; reflexivity. Qed.

Lemma requests_handleModeChange (s : store) (val : ViewModeType) (o : settled) :
  requests (exec (handleModeChange val) [o] s) =
  if decide (val <> activeMode s /\ val = Topo /\ topoSrc s = [])
  then [getParams s (diagram_types ["callgraph"%string])] else [].
Proof.
  unfold handleModeChange. cbn.
  destruct (decide (val = activeMode s)) as [Heq|Hne]; cbn.
  { rewrite decide_False by tauto. reflexivity. }
  destruct (decide (val = Topo /\ topoSrc s = [])) as [Ht|Hn]; cbn.
  - rewrite decide_True by tauto. destruct o as [[| |[d|]]|]; reflexivity.
  - rewrite decide_False by tauto. reflexivity.
Qed.

(** X3: A field of [queryParams] (other than the four [getParams] sets)
    reaches every request of every handler with the value [queryParams]
    gives it, also where the handler passes a value of its own: a
    [diagram_types] or [sort] field in [queryParams] replaces the
    handlers' diagram selector and the sort key. *)
Theorem queryParams_field_in_every_request
    (s : store) (k : jsstring) (v : value)
    (val : ViewModeType) (sortKey : jsstring) (o : settled) :
  k <> js "service_name" -> k <> js "app_name" ->
  k <> js "end" -> k <> js "start" ->
  queryParams s !! k = Some v ->
  Forall (fun p : gmap jsstring value => p !! k = Some v)
    (requests (exec handleQuery [o] s) ++
     requests (exec (handleModeChange val) [o] s) ++
     requests (exec (handleSortChange sortKey) [o] s)).
Proof.
  intros H1 H2 H3 H4 Hk.
  rewrite requests_handleQuery, requests_handleModeChange, requests_handleSortChange.
  destruct (decide _); repeat constructor;
    apply getParams_keeps_queryParams; assumption.
Qed.

(** X4: On a response with diagrams [handleQuery] keeps nothing of the data
    it had: [tableData] is the returned rows, or empty when there are
    none; [flameData] is the returned tree, also when it is absent;
    [unit] is the returned unit or the empty string; so two calls from
    different states end with the same data, flags and highlight. *)
Theorem handleQuery_overwrites_data (s1 s2 : store) (o : settled) (d : diagrams) :
  payload o = Some d ->
  let c1 := exec handleQuery [o] s1 in
  let c2 := exec handleQuery [o] s2 in
  tableData (final c1) = default [] (table_data d) /\
  flameData (final c1) = flame_data d /\
  unit_ (final c1) = default [] (d_unit d) /\
  empty_ (final c1) = false /\
  tableData (final c2) = tableData (final c1) /\
  flameData (final c2) = flameData (final c1) /\
  unit_ (final c2) = unit_ (final c1) /\
  empty_ (final c2) = empty_ (final c1) /\
  isLoading (final c2) = isLoading (final c1) /\
  highlightId (final c2) = highlightId (final c1).
Proof.
  intros Hp. destruct o as [[| |[d'|]]|]; try discriminate Hp.
  injection Hp as ->. cbn. repeat split; reflexivity.
Qed.

(** X5: [handleQuery] is idempotent: a second call that gets the same
    settlement sends the same request and leaves the state of the first
    as it is. *)
Theorem handleQuery_idempotent (s : store) (o : settled) :
  let c1 := exec handleQuery [o] s in
  let c2 := exec handleQuery [o] (final c1) in
  final c2 = final c1 /\ requests c2 = requests c1 /\ result c2 = result c1.
Proof.
  destruct o as [[| |[d|]]|]; cbn; repeat split; reflexivity.
Qed.

Lemma handleModeChange_sets_mode (s : store) (val : ViewModeType) (o : settled) :
  activeMode (final (exec (handleModeChange val) [o] s)) = val.
Proof.
  unfold handleModeChange. cbn.
  destruct (decide (val = activeMode s)) as [Heq|Hne]; cbn; [congruence|].
  destruct (decide (val = Topo /\ topoSrc s = [])); cbn; [|reflexivity].
  destruct o as [[| |[d|]]|]; reflexivity.
Qed.

(** X6: Selecting a mode a second time does nothing, however the first
    selection went: in particular, after a callgraph request that failed
    (or threw), selecting [Topo] again sends no new request although
    [topoSrc] is still empty. *)
Theorem handleModeChange_again_is_noop
    (s : store) (val : ViewModeType) (o o' : settled) :
  let c1 := exec (handleModeChange val) [o] s in
  let c2 := exec (handleModeChange val) [o'] (final c1) in
  final c2 = final c1 /\ requests c2 = [] /\ result c2 = Returned tt.
Proof.
  cbv zeta.
  pose proof (handleModeChange_sets_mode s val o) as Hm.
  set (s1 := final (exec (handleModeChange val) [o] s)) in *. clearbody s1.
  unfold handleModeChange. cbn.
  destruct (decide (val = activeMode s1)) as [_|Hne]; [|congruence].
  repeat split.
Qed.

(** X7: When the promise resolves to [null] or [undefined], reading
    [data.diagrams] throws. [handleSortChange] then ends with the error
    and an unchanged state. [handleModeChange], which has no [try], ends
    with the error after it has set the mode and [isLoading]: the flag
    stays set and [topoSrc] empty. *)
Theorem null_response_throws (s : store) (val : ViewModeType) (sortKey : jsstring) :
  (let c := exec (handleSortChange sortKey) [Fulfilled DNullish] s in
   result c = Threw TypeError /\ final c = s) /\
  (val <> activeMode s -> val = Topo -> topoSrc s = [] ->
   let c := exec (handleModeChange val) [Fulfilled DNullish] s in
   result c = Threw TypeError /\
   isLoading (final c) = true /\
   activeMode (final c) = Topo /\
   topoSrc (final c) = [] /\
   tableData (final c) = tableData s /\
   empty_ (final c) = empty_ s).
Proof.
  split; [split; reflexivity|].
  intros Hne Ht Hsrc. cbv zeta. unfold handleModeChange. cbn.
  destruct (decide (val = activeMode s)); [contradiction|]. cbn.
  destruct (decide (val = Topo /\ topoSrc s = [])); [|tauto]. cbn.
  repeat split; assumption.
Qed.

(** *** Requests on the event loop *)

Lemma getParams_well_formed (s : store) (args : gmap jsstring value) :
  is_Some (args !! js "diagram_types") ->
  well_formed_request (getParams s args).
Proof.
  intros Ha. unfold well_formed_request. rewrite !getParams_lookup.
  repeat split.
  - eexists _, _. split; reflexivity.
  - repeat (case_decide; [discriminate|]).
    destruct (queryParams s !! js "diagram_types"); [eexists; reflexivity|exact Ha].
Qed.

(** What one event adds to the requests sent: at most one request, well
    formed; nothing for a settlement, a keyword or highlight update, or a
    change of [queryParams] (whose request waits for the timeout). *)
Lemma step_sent (w : world) (ev : event) :
  coherent w ->
  exists l,
    sent (step w ev) = sent w ++ l /\
    (length l <= 1)%nat /\
    Forall (fun r => well_formed_request r.2) l /\
    match ev with
    | Settle _ _ | KeywordChange _ | UpdateHighlightId _ | QueryParamsChanged _ =>
        l = []
    | _ => True
    end.
Proof.
  intros Hc.
  assert (Hnone : forall w' : world, sent w' = sent w ->
    exists l, sent w' = sent w ++ l /\ (length l <= 1)%nat /\
              Forall (fun r => well_formed_request r.2) l /\ l = []).
  { intros w' E. exists []. rewrite app_nil_r. repeat split; auto. }
  assert (Hone : forall (w' : world) by_ args, is_Some (args !! js "diagram_types") ->
    sent w' = sent w ++ [(by_, getParams (refs w) args)] ->
    exists l, sent w' = sent w ++ l /\ (length l <= 1)%nat /\
              Forall (fun r => well_formed_request r.2) l /\ True).
  { intros w' by_ args Ha E. eexists. split; [exact E|].
    split; [simpl; lia|]. split; [|exact I].
    constructor; [|constructor]. apply getParams_well_formed, Ha. }
  assert (Hdt : forall types, is_Some (diagram_types types !! js "diagram_types")).
  { intros types. eexists. apply lookup_singleton_eq. }
  destruct ev as [qp|tr|val|key|kw|id|dt|i o]; unfold step; cbv beta iota zeta.
  - apply Hnone. reflexivity.
  - destruct (advance_handleQuery handleTransformToTimestamp
                (with_refs (set_timeRange tr) w)) as [k [Hk ->]].
    eexists. split; [reflexivity|]. split; [simpl; lia|]. split; [|exact I].
    constructor; [|constructor]. apply getParams_well_formed, Hdt.
  - destruct (advance_handleModeChange handleTransformToTimestamp w val) as [k [Hk ->]].
    repeat case_decide.
    + destruct (Hnone w eq_refl) as (l & ? & ? & ? & ?). exists l. auto.
    + eapply Hone; [apply Hdt|reflexivity].
    + destruct (Hnone (with_refs (fun s => set_activeMode val (set_highlightId (-1) s)) w)
                  eq_refl) as (l & ? & ? & ? & ?).
      exists l. auto.
  - destruct (advance_handleSortChange handleTransformToTimestamp w key) as [k [Hk ->]].
    eapply Hone; [|reflexivity].
    rewrite lookup_insert_ne by discriminate. apply Hdt.
  - apply Hnone. reflexivity.
  - apply Hnone. reflexivity.
  - destruct (timer w) as [t0|].
    + destruct (t0 <=? now w + dt).
      * match goal with |- context [advance ByQuery _ ?w0] =>
          destruct (advance_handleQuery handleTransformToTimestamp w0) as [k [Hk ->]] end.
        eapply Hone; [apply Hdt|reflexivity].
      * destruct (Hnone w eq_refl) as (l & ? & ? & ? & ?). exists l. auto.
    + destruct (Hnone w eq_refl) as (l & ? & ? & ? & ?). exists l. auto.
  - destruct (inflight w !! i) as [tk|] eqn:Ht; [|apply Hnone; reflexivity].
    pose proof (Forall_lookup_1 _ _ _ _ Hc Ht) as Hk. cbn in Hk.
    match goal with |- context [advance _ _ ?w0] =>
      destruct (advance_finishes (t_origin tk) (t_resume tk) o w0 Hk)
        as (_ & _ & _ & _ & Hs) end.
    apply Hnone. exact Hs.
Qed.

(** X8: In every state the component can reach, every request sent so far is
    well formed: [start] and [end] are numbers, the products of whole
    seconds and 10^6 as binary64 multiplication gives them; the two names
    are the hard-coded ones; and a [diagram_types] field is present. *)
Theorem every_request_well_formed (w : world) :
  reachable w -> Forall (fun r => well_formed_request r.2) (sent w).
Proof.
  induction 1 as [qp tr|w ev Hw IH].
  - constructor.
  - destruct (step_sent w ev (reachable_coherent _ w Hw)) as (l & -> & _ & Hl & _).
    apply Forall_app. split; assumption.
Qed.

(** X9: No event sends more than one request, and the settlement of a request
    sends none: a failed or empty fetch is never retried on its own, and
    no response triggers a further fetch. *)
Theorem settlements_send_nothing (w : world) (ev : event) :
  reachable w ->
  (length (sent (step w ev)) <= length (sent w) + 1)%nat /\
  forall (i : nat) (o : settled), sent (step w (Settle i o)) = sent w.
Proof.
  intros Hw. pose proof (reachable_coherent _ w Hw) as Hc. split.
  - destruct (step_sent w ev Hc) as (l & -> & Hl & _).
    rewrite length_app. lia.
  - intros i o. destruct (step_sent w (Settle i o) Hc) as (l & -> & _ & _ & ->).
    apply app_nil_r.
Qed.

(** X10: The first fetch: [setup] sends nothing; the request goes out once 16
    ms have passed, built from the initial parameters, and only then is
    [isLoading] set. *)
Theorem first_fetch_after_delay
    (qp : gmap jsstring value) (tr : TimeRange) (d : N) :
  let w : world := step (setup qp tr) (Elapse d) in
  sent (setup qp tr : world) = [] /\
  (d < debounce_delay ->
   sent w = [] /\ isLoading (refs w) = false /\ timer w = Some debounce_delay) /\
  (debounce_delay <= d ->
   sent w = [(ByQuery,
              getParams (initial_store qp tr : store)
                (diagram_types ["table"; "flamegraph"]%string))] /\
   isLoading (refs w) = true /\ timer w = None).
Proof.
  cbv zeta. split; [reflexivity|]. unfold step, setup. cbn.
  rewrite !N.add_0_l. split.
  - intros Hd. replace (debounce_delay <=? d) with false
      by (symmetry; apply N.leb_gt; exact Hd).
    repeat split.
  - intros Hd. replace (debounce_delay <=? d) with true
      by (symmetry; apply N.leb_le; exact Hd).
    repeat split.
Qed.

(** *** Responses out of order *)

Lemma handleQuery_resumes (s : store) :
  exists k,
    run handleQuery s =
      (set_highlightId (-1) (set_isLoading true s),
       Awaiting (getParams s (diagram_types ["table"; "flamegraph"]%string)) k) /\
    forall (o : settled) (s2 : store),
      run (k o) s2 =
        (match payload o with
         | Some d =>
             set_isLoading false
               (set_empty false
                  (set_flameData (flame_data d)
                     (set_tableData (default [] (table_data d))
                        (set_unit (default [] (d_unit d)) s2))))
         | None => set_isLoading false (set_empty true s2)
         end, Returned tt).
Proof.
  eexists. split; [reflexivity|].
  intros o s2. destruct o as [[| |[d|]]|]; reflexivity.
Qed.

Lemma settle_last (w : world) (tk : task) (l : list task) (o : settled) :
  inflight w = l ++ [tk] ->
  step w (Settle (length l) o) =
  advance (t_origin tk) (t_resume tk o)
    {| refs := refs w; now := now w; timer := timer w; inflight := l;
       sent := sent w; unhandled := unhandled w |}.
Proof.
  intros E. unfold step. rewrite E.
  rewrite (list_lookup_middle l [] tk (length l) eq_refl).
  rewrite delete_middle, app_nil_r. reflexivity.
Qed.

Lemma step_time_range (w : world) (tr : TimeRange) :
  exists k,
    (forall (o : settled) (s2 : store),
       run (k o) s2 =
         (match payload o with
          | Some d =>
              set_isLoading false
                (set_empty false
                   (set_flameData (flame_data d)
                      (set_tableData (default [] (table_data d))
                         (set_unit (default [] (d_unit d)) s2))))
          | None => set_isLoading false (set_empty true s2)
          end, Returned tt)) /\
    step w (TimeRangeChanged tr) =
      {| refs := set_highlightId (-1)
                   (set_isLoading true (set_timeRange tr (refs w)));
         now := now w; timer := timer w;
         inflight := inflight w ++ [{| t_origin := ByQuery; t_resume := k |}];
         sent := sent w ++
           [(ByQuery, getParams (set_timeRange tr (refs w))
                        (diagram_types ["table"; "flamegraph"]%string))];
         unhandled := unhandled w |}.
Proof.
  destruct (handleQuery_resumes (set_timeRange tr (refs w))) as [k [Hr Hk]].
  exists k. split; [exact Hk|].
  unfold step, advance. cbn [with_refs refs]. rewrite Hr. reflexivity.
Qed.

(** X11: No request is cancelled and the last response to arrive wins: when
    the time range changes twice and the response to the second request
    arrives before the response to the first, the component ends up
    showing the data of the first, older request under the second time
    range. *)
Theorem older_response_overwrites_newer
    (w : world) (tr1 tr2 : TimeRange) (o1 o2 : settled) (d1 : diagrams) :
  payload o1 = Some d1 ->
  let n := length (inflight w) in
  let w' := run_events w
              [TimeRangeChanged tr1; TimeRangeChanged tr2;
               Settle (S n) o2; Settle n o1] in
  sent w' = sent w ++
    [(ByQuery, getParams (set_timeRange tr1 (refs w))
                 (diagram_types ["table"; "flamegraph"]%string));
     (ByQuery, getParams (set_timeRange tr2 (refs w))
                 (diagram_types ["table"; "flamegraph"]%string))] /\
  inflight w' = inflight w /\
  timeRange (refs w') = tr2 /\
  tableData (refs w') = default [] (table_data d1) /\
  flameData (refs w') = flame_data d1 /\
  unit_ (refs w') = default [] (d_unit d1) /\
  empty_ (refs w') = false /\
  isLoading (refs w') = false.
Proof.
  intros Hp. cbv zeta. unfold run_events.
  assert (E : exists s2 : store,
    timeRange s2 = tr2 /\
    fold_left step
      [TimeRangeChanged tr1; TimeRangeChanged tr2;
       Settle (S (length (inflight w))) o2; Settle (length (inflight w)) o1] w =
    {| refs := set_isLoading false
                 (set_empty false
                    (set_flameData (flame_data d1)
                       (set_tableData (default [] (table_data d1))
                          (set_unit (default [] (d_unit d1)) s2))));
       now := now w; timer := timer w; inflight := inflight w;
       sent := sent w ++
         [(ByQuery, getParams (set_timeRange tr1 (refs w))
                      (diagram_types ["table"; "flamegraph"]%string));
          (ByQuery, getParams (set_timeRange tr2 (refs w))
                      (diagram_types ["table"; "flamegraph"]%string))];
       unhandled := unhandled w |}).
  { cbn [fold_left].
    (* the two requests go out *)
    destruct (step_time_range w tr1) as (k1 & Hk1 & ->).
    match goal with |- context [step ?w0 (TimeRangeChanged tr2)] =>
      destruct (step_time_range w0 tr2) as (k2 & Hk2 & ->) end.
    cbn [refs now timer inflight sent unhandled].
    (* the second settles *)
    replace (S (length (inflight w)))
      with (length (inflight w ++ [{| t_origin := ByQuery; t_resume := k1 |}]))
      by (rewrite length_app; simpl; lia).
    rewrite (settle_last _ {| t_origin := ByQuery; t_resume := k2 |}
               (inflight w ++ [{| t_origin := ByQuery; t_resume := k1 |}]) o2)
      by reflexivity.
    unfold advance. cbn [refs now timer inflight sent unhandled t_origin t_resume].
    rewrite Hk2.
    (* then the first *)
    rewrite (settle_last _ {| t_origin := ByQuery; t_resume := k1 |} (inflight w) o1)
      by reflexivity.
    unfold advance. cbn [refs now timer inflight sent unhandled t_origin t_resume].
    rewrite Hk1, Hp. rewrite <- app_assoc.
    eexists. split; [|reflexivity].
    destruct (payload o2); reflexivity. }
  destruct E as (s2 & Hs2 & ->). cbn. repeat split. exact Hs2.
Qed.

(** *** What is on screen *)

Lemma step_keeps_empty (w : world) (ev : event) :
  coherent w -> ~ query_settlement w ev ->
  empty_ (refs (step w ev)) = empty_ (refs w).
Proof.
  intros Hc Hev.
  destruct ev as [qp|tr|val|key|kw|id|dt|i o]; unfold step; cbv beta iota zeta.
  - reflexivity.
  - destruct (advance_handleQuery handleTransformToTimestamp
                (with_refs (set_timeRange tr) w)) as [k [Hk ->]].
    reflexivity.
  - destruct (advance_handleModeChange handleTransformToTimestamp w val) as [k [Hk ->]].
    repeat case_decide; reflexivity.
  - destruct (advance_handleSortChange handleTransformToTimestamp w key) as [k [Hk ->]].
    reflexivity.
  - reflexivity.
  - reflexivity.
  - destruct (timer w) as [t0|]; [|reflexivity].
    destruct (t0 <=? now w + dt); [|reflexivity].
    match goal with |- context [advance ByQuery _ ?w0] =>
      destruct (advance_handleQuery handleTransformToTimestamp w0) as [k [Hk ->]] end.
    reflexivity.
  - destruct (inflight w !! i) as [tk|] eqn:Ht; [|reflexivity].
    pose proof (Forall_lookup_1 _ _ _ _ Hc Ht) as Hk. cbn in Hk.
    assert (Hne : t_origin tk <> ByQuery).
    { intros Heq. apply Hev. exists tk. split; [exact Ht|exact Heq]. }
    match goal with |- context [advance _ _ ?w0] =>
      destruct (advance_finishes (t_origin tk) (t_resume tk) o w0 Hk)
        as ((_ & _ & _ & Hu) & _) end.
    cbn in Hu. destruct (t_origin tk); [congruence|apply Hu|apply Hu].
Qed.

(** X12: After a table/flame fetch that brought no diagrams, [render] shows
    the empty-state placeholder and the loading overlay is off, in every
    mode: the data kept from before are in no graph on screen. *)
Theorem stale_data_not_rendered
    (t : jsstring -> jsstring) (textDirection : jsstring) (s : store) (o : settled) :
  payload o = None ->
  let v := render t textDirection (final (exec handleQuery [o] s)) in
  body v = Exception (js "empty") (t no_data_key) /\ loading v = false.
Proof.
  intros Hp. destruct o as [[| |[d|]]|]; try discriminate Hp; split; reflexivity.
Qed.

(** X13: While [empty] is set, as it is from [setup] on, [render] shows the
    placeholder whatever else happens: only the settlement of a
    table/flame fetch can bring a graph on screen. Switching to [Topo]
    and fetching the callgraph does not: the topology stays hidden until
    a table/flame fetch has succeeded. *)
Theorem placeholder_until_query_settles
    (t : jsstring -> jsstring) (textDirection : jsstring) (w : world) (ev : event) :
  reachable w -> empty_ (refs w) = true -> ~ query_settlement w ev ->
  body (render t textDirection (refs (step w ev))) =
    Exception (js "empty") (t no_data_key).
Proof.
  intros Hw He Hev. unfold render. cbn [body].
  rewrite (step_keeps_empty w ev (reachable_coherent _ w Hw) Hev), He.
  reflexivity.
Qed.

End ControllerMore.

(** ** The further properties on the sample inputs *)

(** A [diagram_types] field in [queryParams] is what all three handlers
    send. *)
Lemma queryParams_field_in_every_request_witness :
  queryParams sample_selector_store !! js "diagram_types" =
    Some (VArr [VStr (js "flamegraph")]) /\
  Forall (fun p : gmap jsstring value =>
            p !! js "diagram_types" = Some (VArr [VStr (js "flamegraph")]))
    (requests (exec (handleQuery epoch_seconds) [Rejected] sample_selector_store) ++
     requests (exec (handleModeChange epoch_seconds Topo) [Rejected]
                 sample_selector_store) ++
     requests (exec (handleSortChange epoch_seconds (js "self")) [Rejected]
                 sample_selector_store)).
Proof.
  assert (Hk : queryParams sample_selector_store !! js "diagram_types" =
               Some (VArr [VStr (js "flamegraph")])) by (vm_compute; reflexivity).
  split; [exact Hk|].
  apply (queryParams_field_in_every_request epoch_seconds sample_selector_store
           (js "diagram_types") (VArr [VStr (js "flamegraph")]) Topo (js "self")
           Rejected);
    try exact Hk; intros H; vm_compute in H; discriminate H.
Defined.

Lemma handleQuery_overwrites_data_witness :
  payload sample_success = Some sample_diagrams /\
  tableData (final (exec (handleQuery epoch_seconds) [sample_success] sample_loaded)) =
    default [] (table_data sample_diagrams) /\
  tableData (final (exec (handleQuery epoch_seconds) [sample_success] sample_store)) =
    tableData (final (exec (handleQuery epoch_seconds) [sample_success] sample_loaded)).
Proof.
  pose proof (handleQuery_overwrites_data epoch_seconds sample_loaded sample_store
                sample_success sample_diagrams eq_refl) as H.
  cbv zeta in H. destruct H as (H1 & _ & _ & _ & H2 & _).
  split; [reflexivity|]. split; [exact H1|exact H2].
Defined.

(** [handleModeChange] to [Topo] on the loaded sample store, the promise
    resolving to [null]. *)
Lemma null_response_throws_witness :
  result (exec (handleModeChange epoch_seconds Topo) [Fulfilled DNullish] sample_loaded) =
    Threw TypeError /\
  isLoading (final (exec (handleModeChange epoch_seconds Topo) [Fulfilled DNullish]
                      sample_loaded)) = true.
Proof.
  pose proof (null_response_throws epoch_seconds sample_loaded Topo (js "self")) as H.
  destruct H as (_ & H).
  assert (Hne : Topo <> activeMode sample_loaded) by discriminate.
  destruct (H Hne eq_refl eq_refl) as (H1 & H2 & _).
  split; [exact H1|exact H2].
Defined.

Lemma sample_after_new_params_reachable :
  reachable epoch_seconds sample_after_new_params.
Proof.
  unfold sample_after_new_params, sample_topo_cached, sample_started.
  do 3 apply reachable_run_events. apply reachable_setup.
Qed.

Lemma every_request_well_formed_witness :
  length (sent sample_after_new_params) = 3%nat /\
  Forall (fun r => well_formed_request r.2) (sent sample_after_new_params).
Proof.
  split; [vm_compute; reflexivity|].
  apply (every_request_well_formed epoch_seconds sample_after_new_params).
  apply sample_after_new_params_reachable.
Defined.

Lemma settlements_send_nothing_witness :
  (length (sent (step epoch_seconds sample_after_new_params (SortChange (js "self"))))
   <= length (sent sample_after_new_params) + 1)%nat /\
  forall (i : nat) (o : @settled nat),
    sent (step epoch_seconds sample_after_new_params (Settle i o)) =
    sent sample_after_new_params.
Proof.
  apply (settlements_send_nothing epoch_seconds sample_after_new_params
           (SortChange (js "self"))).
  apply sample_after_new_params_reachable.
Defined.

(** The range changes twice on the sample world; the response to the
    second request is a rejection, the late response to the first brings
    the sample diagrams. *)
Lemma older_response_overwrites_newer_witness :
  payload sample_success = Some sample_diagrams /\
  (let w' := run_events epoch_seconds sample_world
               [TimeRangeChanged (1700000000, 1700000060)%Z;
                TimeRangeChanged (1700000000, 1700000120)%Z;
                Settle 1 Rejected; Settle 0 sample_success] in
   timeRange (refs w') = (1700000000, 1700000120)%Z /\
   tableData (refs w') = default [] (table_data sample_diagrams) /\
   empty_ (refs w') = false).
Proof.
  pose proof (older_response_overwrites_newer epoch_seconds sample_world
                (1700000000, 1700000060)%Z (1700000000, 1700000120)%Z
                sample_success Rejected sample_diagrams eq_refl) as H.
  cbv zeta in H. destruct H as (_ & _ & H1 & H2 & _ & _ & H3 & _).
  split; [reflexivity|]. split; [exact H1|]. split; [exact H2|exact H3].
Defined.

Lemma stale_data_not_rendered_witness :
  payload (@Rejected nat) = None /\
  tableData (final (exec (handleQuery epoch_seconds) [Rejected] sample_loaded)) =
    [7; 8]%nat /\
  body (render sample_translate (js "ltr")
          (final (exec (handleQuery epoch_seconds) [Rejected] sample_loaded))) =
    Exception (js "empty") no_data_key.
Proof.
  split; [reflexivity|]. split; [reflexivity|].
  apply (stale_data_not_rendered epoch_seconds sample_translate (js "ltr")
           sample_loaded Rejected eq_refl).
Defined.

(** Right after [setup], switching to [Topo] leaves the placeholder on
    screen. *)
Lemma placeholder_until_query_settles_witness :
  body (render sample_translate (js "ltr")
          (refs (step epoch_seconds (setup sample_params sample_range)
                   (ModeChange Topo)))) =
    @Exception nat (js "empty") no_data_key.
Proof.
  apply (placeholder_until_query_settles epoch_seconds sample_translate (js "ltr")
           (setup sample_params sample_range) (ModeChange Topo)).
  - apply reachable_setup.
  - reflexivity.
  - intros [].
Defined.
